(** * The PostgreSQL dialect of ngorm: column types, catalog probes, Hstore

    A shallow embedding of [dialect.go] (package [postgres]) and of the
    [Hstore] codec that ships with the second copy of the dialect
    (package [gorm]).  Go values become Rocq values:

    - [string] is a byte string, [int] is [Z];
    - a Go [map[string]T] that is always allocated is a [gmap string T];
      where the source distinguishes the nil map, the map is an [option];
    - a function that writes through a pointer receives the old pointee
      and returns the new one next to its result;
    - [error] is an [option]: [None] is Go's [nil].

    Code of other packages (ngorm/model, database/sql, lib/pq/hstore) is
    not part of this repository.  It enters as Section variables, and a
    theorem names the part of their contract that it relies on.

    The file has three parts: the embedding of the source, the instances
    and the vocabulary that the statements use, and the statements with
    their proofs. *)

From Stdlib Require Import ZArith String Ascii List DecimalString.
From Stdlib Require DecimalPos DecimalZ.
From stdpp Require Import gmap strings.

Open Scope Z_scope.
Open Scope string_scope.

(** * Part I: the source

    ** Go's [error] values *)

Inductive error : Set := errorString (msg : string).

(** ** Package [reflect]: kinds and type descriptors *)

Module reflect.

(** [reflect.Kind], in the order of its declaration. *)
Inductive Kind : Set :=
| Invalid | Bool
| Int | Int8 | Int16 | Int32 | Int64
| Uint | Uint8 | Uint16 | Uint32 | Uint64 | Uintptr
| Float32 | Float64 | Complex64 | Complex128
| Array | Chan | Func | Interface | Map | Ptr | Slice
| String | Struct | UnsafePointer.

Definition Kind_eq_dec (a b : Kind) : {a = b} + {a <> b}.
Proof. decide equality. Defined.

Definition Kind_eqb (a b : Kind) : bool :=
  if Kind_eq_dec a b then true else false.

(** [Kind.String()]. *)
Definition Kind_String (k : Kind) : string :=
  match k with
  | Invalid => "invalid" | Bool => "bool"
  | Int => "int" | Int8 => "int8" | Int16 => "int16"
  | Int32 => "int32" | Int64 => "int64"
  | Uint => "uint" | Uint8 => "uint8" | Uint16 => "uint16"
  | Uint32 => "uint32" | Uint64 => "uint64" | Uintptr => "uintptr"
  | Float32 => "float32" | Float64 => "float64"
  | Complex64 => "complex64" | Complex128 => "complex128"
  | Array => "array" | Chan => "chan" | Func => "func"
  | Interface => "interface" | Map => "map" | Ptr => "ptr"
  | Slice => "slice" | String => "string" | Struct => "struct"
  | UnsafePointer => "unsafe.Pointer"
  end.

(** What the dialect asks of a [reflect.Type]: its kind, its name (empty
    for an unnamed type) and package path, the length of an array type and
    the element type of an array or slice. *)
#[local] Unset Elimination Schemes.
Inductive Type_ : Set :=
  mkType (kind : Kind) (pkgPath name : string) (len : Z)
         (elem : option Type_).
#[local] Set Elimination Schemes.

Definition Type_Kind (t : Type_) : Kind := let 'mkType k _ _ _ _ := t in k.
Definition Type_PkgPath (t : Type_) : string :=
  let 'mkType _ p _ _ _ := t in p.
Definition Type_Name (t : Type_) : string := let 'mkType _ _ n _ _ := t in n.
Definition Type_Len (t : Type_) : Z := let 'mkType _ _ _ l _ := t in l.
Definition Type_Elem (t : Type_) : option Type_ :=
  let 'mkType _ _ _ _ e := t in e.

(** [t1 == t2] on [reflect.Type]: type identity. *)
Fixpoint Type_eqb (a b : Type_) : bool :=
  match a, b with
  | mkType k p n l e, mkType k' p' n' l' e' =>
      Kind_eqb k k' && String.eqb p p' && String.eqb n n' && Z.eqb l l'
      && match e, e' with
         | None, None => true
         | Some x, Some y => Type_eqb x y
         | _, _ => false
         end
  end.

(** A [reflect.Value]; the dialect only looks at its type. *)
Record Value : Set := ValueOf { Value_Type : Type_ }.

Definition Value_Kind (v : Value) : Kind := Type_Kind (Value_Type v).

(** Predeclared and library types that the dialect tests for. *)
Definition basic (k : Kind) : Type_ := mkType k "" (Kind_String k) 0 None.
Definition uint8 : Type_ := basic Uint8.
Definition time_Time : Type_ := mkType Struct "time" "Time" 0 None.

End reflect.

(** ** Package [strings] and [fmt] *)

Module strings.

Definition bytes (s : string) : list N :=
  List.map N_of_ascii (list_ascii_of_string s).

Definition of_bytes (l : list N) : string :=
  string_of_list_ascii (List.map ascii_of_N l).

(** [unicode.IsSpace] on the front of a UTF-8 byte sequence: tab, line
    feed, vertical tab, form feed, carriage return, space, U+0085, U+00A0,
    U+1680, U+2000 to U+200A, U+2028, U+2029, U+202F, U+205F, U+3000. *)
Fixpoint trimLeftSpace (l : list N) : list N :=
  match l with
  | (9 | 10 | 11 | 12 | 13 | 32)%N :: r => trimLeftSpace r
  | 194%N :: (133 | 160)%N :: r => trimLeftSpace r
  | 225%N :: 154%N :: 128%N :: r => trimLeftSpace r
  | 226%N :: 128%N ::
      (128 | 129 | 130 | 131 | 132 | 133 | 134 | 135 | 136 | 137 | 138
       | 168 | 169 | 175)%N :: r => trimLeftSpace r
  | 226%N :: 129%N :: 159%N :: r => trimLeftSpace r
  | 227%N :: 128%N :: 128%N :: r => trimLeftSpace r
  | _ => l
  end.

(** The same on the reversed sequence, for the trailing end. *)
Fixpoint trimRightSpaceRev (l : list N) : list N :=
  match l with
  | (9 | 10 | 11 | 12 | 13 | 32)%N :: r => trimRightSpaceRev r
  | (133 | 160)%N :: 194%N :: r => trimRightSpaceRev r
  | 128%N :: 154%N :: 225%N :: r => trimRightSpaceRev r
  | (128 | 129 | 130 | 131 | 132 | 133 | 134 | 135 | 136 | 137 | 138
     | 168 | 169 | 175)%N :: 128%N :: 226%N :: r => trimRightSpaceRev r
  | 159%N :: 129%N :: 226%N :: r => trimRightSpaceRev r
  | 128%N :: 128%N :: 227%N :: r => trimRightSpaceRev r
  | _ => l
  end.

(** [strings.TrimSpace]. *)
Definition TrimSpace (s : string) : string :=
  of_bytes (rev (trimRightSpaceRev (rev (trimLeftSpace (bytes s))))).

(** [strings.ToLower], on the ASCII letters; other bytes are kept. *)
Definition lowerByte (c : N) : N :=
  if ((65 <=? c) && (c <=? 90))%N then (c + 32)%N else c.

Definition ToLower (s : string) : string :=
  of_bytes (List.map lowerByte (bytes s)).

End strings.

Module fmt.

(** The verb [%d] on an [int]. *)
Definition d (z : Z) : string := NilZero.string_of_int (Z.to_int z).

End fmt.

(** ** Package [model]: the field descriptor *)

Module model.

(** [model.StructField], with the parts the dialect reads or writes:
    the primary-key flag, the tag settings (an allocated map, as the model
    parser builds it) and the reflected Go field. *)
Record StructField : Type := {
  Name : string;
  IsPrimaryKey : bool;
  TagSettings : gmap string string;
  Struct : reflect.Type_
}.

(** [field.TagSettings[k] = v]. *)
Definition setTag (k v : string) (field : StructField) : StructField :=
  {| Name := Name field;
     IsPrimaryKey := IsPrimaryKey field;
     TagSettings := <[k := v]> (TagSettings field);
     Struct := Struct field |}.

(** [_, ok := field.TagSettings[k]]. *)
Definition hasTag (k : string) (field : StructField) : bool :=
  bool_decide (is_Some (TagSettings field !! k)).

End model.

(** ** [dialect.go]: placeholders and the suffix of an insert *)

(** [BindVar]: [fmt.Sprintf("$%v", i)]; the verb [%v] prints an [int] as
    [%d] does. *)
Definition BindVar (i : Z) : string := "$" +:+ fmt.d i.

(** [LastInsertIDReturningSuffix]:
    [fmt.Sprintf("RETURNING %v.%v", tableName, key)]. *)
Definition LastInsertIDReturningSuffix (tableName key : string) : string :=
  "RETURNING " +:+ tableName +:+ "." +:+ key.

(** ** [dialect.go]: the column type of a field *)

(** [isByteArrayOrSlice]: an array or slice whose element type is [uint8]. *)
Definition isByteArrayOrSlice (value : reflect.Value) : bool :=
  (reflect.Kind_eqb (reflect.Value_Kind value) reflect.Array
   || reflect.Kind_eqb (reflect.Value_Kind value) reflect.Slice)
  && match reflect.Type_Elem (reflect.Value_Type value) with
     | Some t => reflect.Type_eqb t reflect.uint8
     | None => false
     end.

(** [isUUID]: an array of length 16 whose type name, in lower case, is
    [uuid] or [guid]. *)
Definition isUUID (value : reflect.Value) : bool :=
  if negb (reflect.Kind_eqb (reflect.Value_Kind value) reflect.Array)
     || negb (reflect.Type_Len (reflect.Value_Type value) =? 16)%Z
  then false
  else
    let typename := reflect.Type_Name (reflect.Value_Type value) in
    let lower := strings.ToLower typename in
    String.eqb "uuid" lower || String.eqb "guid" lower.

(** [_, ok := dataValue.Interface().(time.Time)]. *)
Definition isTime (value : reflect.Value) : bool :=
  reflect.Type_eqb (reflect.Value_Type value) reflect.time_Time.

(** [fmt.Errorf("invalid sql type %s (%s) for postgres", ...)]. *)
Definition invalidSQLType (value : reflect.Value) : error :=
  errorString
    ("invalid sql type " +:+ reflect.Type_Name (reflect.Value_Type value)
     +:+ " (" +:+ reflect.Kind_String (reflect.Value_Kind value)
     +:+ ") for postgres").

Section Dialect.

(** [model.ParseFieldStructForDialect] of ngorm: the zero value of the
    field's type, the SQL type set by the tags (empty when there is none),
    the size and the additional type.  It reads the field and writes
    nothing to it. *)
Variable ParseFieldStructForDialect :
  model.StructField -> reflect.Value * string * Z * string.

(** The [switch] of [DataTypeOf] on the kind of the value: the SQL type it
    assigns (empty when no case assigns one) and the field after it. *)
Definition kindType (dataValue : reflect.Value) (size : Z)
    (field : model.StructField) : string * model.StructField :=
  match reflect.Value_Kind dataValue with
  | reflect.Bool => ("boolean", field)
  | reflect.Int | reflect.Int8 | reflect.Int16 | reflect.Int32
  | reflect.Uint | reflect.Uint8 | reflect.Uint16 | reflect.Uint32
  | reflect.Uintptr =>
      if model.hasTag "AUTO_INCREMENT" field || model.IsPrimaryKey field
      then ("serial", model.setTag "AUTO_INCREMENT" "AUTO_INCREMENT" field)
      else ("integer", field)
  | reflect.Int64 | reflect.Uint64 =>
      if model.hasTag "AUTO_INCREMENT" field || model.IsPrimaryKey field
      then ("bigserial", model.setTag "AUTO_INCREMENT" "AUTO_INCREMENT" field)
      else ("bigint", field)
  | reflect.Float32 | reflect.Float64 => ("numeric", field)
  | reflect.String =>
      let size := if negb (model.hasTag "SIZE" field) then 0%Z else size in
      if (size >? 0)%Z && (size <? 65532)%Z
      then ("varchar(" +:+ fmt.d size +:+ ")", field)
      else ("text", field)
  | reflect.Struct =>
      if isTime dataValue then ("timestamp with time zone", field)
      else ("", field)
  | reflect.Map =>
      if String.eqb (reflect.Type_Name (reflect.Value_Type dataValue))
                    "Hstore"
      then ("hstore", field)
      else ("", field)
  | _ =>
      if isByteArrayOrSlice dataValue then ("bytea", field)
      else if isUUID dataValue then ("uuid", field)
      else ("", field)
  end.

(** [DataTypeOf]: the string and the error it returns, and the field as the
    call leaves it. *)
Definition DataTypeOf (field : model.StructField)
    : (string * option error) * model.StructField :=
  let '(dataValue, sqlType, size, additionalType) :=
    ParseFieldStructForDialect field in
  let '(sqlType, field) :=
    if String.eqb sqlType "" then kindType dataValue size field
    else (sqlType, field) in
  if String.eqb sqlType "" then
    (("", Some (invalidSQLType dataValue)), field)
  else if String.eqb (strings.TrimSpace additionalType) "" then
    ((sqlType, None), field)
  else
    ((sqlType +:+ " " +:+ additionalType, None), field).

End Dialect.

(** ** [dialect.go]: the catalog probes *)

Module db.

(** A [*sql.Row], as [Scan] sees it with one destination: given the value
    the destination holds, the value it holds afterwards and the error.  A
    row is scanned into an [int] or into a [string]. *)
Record Row : Type := {
  ScanInt : Z -> Z * option error;
  ScanString : string -> string * option error
}.

(** [model.SQLCommon], the [DB] of a dialect: [QueryRow(query, args...)]. *)
Record SQLCommon : Type := {
  QueryRow : string -> list string -> Row
}.

End db.

Definition hasIndexQuery : string :=
  "SELECT count(*) FROM pg_indexes WHERE tablename = $1 AND indexname = $2".

Definition hasForeignKeyQuery : string := "
SELECT Count(con.conname)
FROM   pg_constraint con
WHERE  $1 :: regclass :: oid = con.conrelid
       AND con.conname = $2
       AND con.contype = 'f'
	".

Definition hasTableQuery : string := "
SELECT Count(*)
FROM   information_schema.tables
WHERE  table_name = $1
       AND table_type = 'BASE TABLE'
	".

Definition hasColumnQuery : string := "
SELECT Count(*)
FROM   information_schema.columns
WHERE  table_name = $1
       AND column_name = $2
	".

Definition currentDatabaseQuery : string := "SELECT CURRENT_DATABASE()".

Section Probes.

(** [s.DB]. *)
Variable DB : db.SQLCommon.

(** In each probe the error that [Scan] returns is dropped. *)
Definition HasIndex (tableName indexName : string) : bool :=
  let count := 0%Z in
  let '(count, _) :=
    db.ScanInt (db.QueryRow DB hasIndexQuery [tableName; indexName]) count in
  (count >? 0)%Z.

Definition HasForeignKey (tableName foreignKeyName : string) : bool :=
  let count := 0%Z in
  let query := hasForeignKeyQuery in
  let '(count, _) :=
    db.ScanInt (db.QueryRow DB query [tableName; foreignKeyName]) count in
  (count >? 0)%Z.

Definition HasTable (tableName : string) : bool :=
  let count := 0%Z in
  let query := hasTableQuery in
  let '(count, _) := db.ScanInt (db.QueryRow DB query [tableName]) count in
  (count >? 0)%Z.

Definition HasColumn (tableName columnName : string) : bool :=
  let count := 0%Z in
  let query := hasColumnQuery in
  let '(count, _) :=
    db.ScanInt (db.QueryRow DB query [tableName; columnName]) count in
  (count >? 0)%Z.

Definition CurrentDatabase : string :=
  let name := "" in
  let '(name, _) :=
    db.ScanString (db.QueryRow DB currentDatabaseQuery []) name in
  name.

End Probes.

(** ** The [Hstore] codec (the second copy of the dialect) *)

Module sql.

(** [sql.NullString]. *)
Record NullString : Set := { String_ : string; Valid : bool }.

End sql.

Module driver.

(** A [driver.Value]: [nil], or a value of one of the driver's types. *)
Inductive Value : Set :=
| Nil
| Bytes (b : string)
| Text (s : string)
| Integer (i : Z)
| Boolean (b : bool).

End driver.

(** Go maps that may be nil ([None]): [len(m)], the entries that
    [range m] visits, and [m[k] = v] on an allocated map (the dialect
    assigns to no other). *)
Definition len {V} (m : option (gmap string V)) : Z :=
  match m with
  | Some m => Z.of_nat (size m)
  | None => 0
  end.

Definition entries {V} (m : option (gmap string V)) : gmap string V :=
  default ∅ m.

Definition store {V} (k : string) (v : V) (m : option (gmap string V))
    : option (gmap string V) :=
  <[k := v]> <$> m.

Module hstore.

(** [hstore.Hstore] of lib/pq: a struct around a map that may be nil. *)
Record Hstore : Type := { Map : option (gmap string sql.NullString) }.

End hstore.

(** [type Hstore map[string]*string]: a nil pointer is [None]. *)
Abbreviation Hstore := (option (gmap string (option string))).

Module Hstore.

(** The body of the loop of [Value]: the [sql.NullString] of one entry. *)
Definition nullString (value : option string) : sql.NullString :=
  let s := {| sql.String_ := ""; sql.Valid := false |} in
  match value with
  | Some v => {| sql.String_ := v; sql.Valid := true |}
  | None => s
  end.

(** The body of the loop of [Scan]: the pointer stored for one entry. *)
Definition pointer (s : sql.NullString) : option string :=
  if sql.Valid s then Some (sql.String_ s) else None.

Section Codec.

(** The codec of lib/pq: [hstore.Hstore.Value], and [hstore.Hstore.Scan]
    as the receiver it leaves and the error it returns. *)
Variable pqValue : hstore.Hstore -> driver.Value * option error.
Variable pqScan :
  hstore.Hstore -> driver.Value -> hstore.Hstore * option error.

(** [Hstore.Value].  The loop over [h] is a fold: the order in which Go
    visits the keys is not fixed, and they are distinct. *)
Definition Value (h : Hstore) : driver.Value * option error :=
  let hstore := {| hstore.Map := Some ∅ |} in
  if (len h =? 0)%Z then (driver.Nil, None)
  else
    let hstore :=
      map_fold
        (fun key value hstore =>
           let s := nullString value in
           {| hstore.Map := store key s (hstore.Map hstore) |})
        hstore (entries h) in
    pqValue hstore.

(** [Hstore.Scan]: the map behind the receiver after the call, and the
    error. *)
Definition Scan (h : Hstore) (value : driver.Value) : Hstore * option error :=
  let hstore := {| hstore.Map := None |} in
  let '(hstore, err) := pqScan hstore value in
  match err with
  | Some err => (h, Some err)
  | None =>
      if (len (hstore.Map hstore) =? 0)%Z then (h, None)
      else
        let h : Hstore := Some ∅ in
        let h :=
          map_fold (fun k s h => store k (pointer s) h)
                   h (entries (hstore.Map hstore)) in
        (h, None)
  end.

End Codec.

End Hstore.

(** * Part II: instances and vocabulary

    ** A tag-driven parser, to run the dialect on concrete fields

    It serves as an instance of the Section variable above: the value is the
    zero value of the field's type, the SQL type is the [TYPE] tag, the size
    is the [SIZE] tag read as a decimal (255 without the tag, 0 when it does
    not parse) and the additional type joins the [NOT NULL] and [UNIQUE]
    tags and a [DEFAULT] clause. *)

Definition tagOr (k : string) (field : model.StructField) : string :=
  default "" (model.TagSettings field !! k).

Definition Atoi (s : string) : Z :=
  match NilZero.int_of_string s with
  | Some i => Z.of_int i
  | None => 0%Z
  end.

Definition tagParser (field : model.StructField)
    : reflect.Value * string * Z * string :=
  let size :=
    match model.TagSettings field !! "SIZE" with
    | Some num => Atoi num
    | None => 255%Z
    end in
  let additionalType := tagOr "NOT NULL" field +:+ " " +:+ tagOr "UNIQUE" field in
  let additionalType :=
    match model.TagSettings field !! "DEFAULT" with
    | Some value => additionalType +:+ " DEFAULT " +:+ value
    | None => additionalType
    end in
  (reflect.ValueOf (model.Struct field), tagOr "TYPE" field, size,
   strings.TrimSpace additionalType).

(** Sample fields. *)
Definition fieldOf (t : reflect.Type_) (pk : bool)
    (tags : list (string * string)) : model.StructField :=
  {| model.Name := "F"; model.IsPrimaryKey := pk;
     model.TagSettings := list_to_map tags; model.Struct := t |}.

Definition int32PK : model.StructField :=
  fieldOf (reflect.basic reflect.Int32) true [("NOT NULL", "NOT NULL")].

Definition sized10 : model.StructField :=
  fieldOf (reflect.basic reflect.String) false
          [("SIZE", "10"); ("NOT NULL", "NOT NULL")].

(** [type UUID [16]byte], as the uuid packages declare it. *)
Definition UUID : reflect.Type_ :=
  reflect.mkType reflect.Array "github.com/google/uuid" "UUID" 16
                 (Some reflect.uint8).

Definition uuidField : model.StructField := fieldOf UUID false [].

(** A map type called [hstore], in lower case. *)
Definition lowerHstore : model.StructField :=
  fieldOf (reflect.mkType reflect.Map "main" "hstore" 0 None) false
          [("UNIQUE", "UNIQUE")].

(** A field tagged [AUTO_INCREMENT:false]. *)
Definition uint64Auto : model.StructField :=
  fieldOf (reflect.basic reflect.Uint64) false [("AUTO_INCREMENT", "false")].

(** [type UUID [16]int8]: sixteen elements that are not of type [uint8]. *)
Definition int8UUID : reflect.Type_ :=
  reflect.mkType reflect.Array "main" "UUID" 16
                 (Some (reflect.basic reflect.Int8)).

(** A primary key with an explicit SQL type. *)
Definition typedPK : model.StructField :=
  fieldOf (reflect.basic reflect.Int64) true [("TYPE", "numeric(20)")].

(** A [time.Time] tagged [NOT NULL]. *)
Definition timeField : model.StructField :=
  fieldOf reflect.time_Time false [("NOT NULL", "NOT NULL")].

(** ** A sample codec, to run [Value] and [Scan]

    An instance of the two Section variables in the literal syntax of the
    engine: pairs [key=>value] separated by commas, keys and values between
    double quotes with a backslash before a quote or a backslash, [NULL] for
    a null value.  A value that is neither [nil] nor bytes is an error. *)

Module sample.

Definition dquote : ascii := ascii_of_N 34.
Definition backslash : ascii := ascii_of_N 92.

Fixpoint escape (s : string) : string :=
  match s with
  | EmptyString => EmptyString
  | String c r =>
      if Ascii.eqb c dquote || Ascii.eqb c backslash
      then String backslash (String c (escape r))
      else String c (escape r)
  end.

Definition hQuote (s : sql.NullString) : string :=
  if sql.Valid s
  then String dquote (escape (sql.String_ s)) +:+ String dquote ""
  else "NULL".

Definition part (kv : string * sql.NullString) : string :=
  hQuote {| sql.String_ := fst kv; sql.Valid := true |} +:+ "=>"
  +:+ hQuote (snd kv).

Definition pqValue (h : hstore.Hstore) : driver.Value * option error :=
  match hstore.Map h with
  | None => (driver.Nil, None)
  | Some m => (driver.Bytes (String.concat "," (List.map part (map_to_list m))),
               None)
  end.

(** The state of the scanner: the key and the value read so far (last byte
    first), which of the two is being read, the flags, the pairs read. *)
Record scanner : Type := {
  key : list ascii; val : list ascii; inValue : bool;
  inQuote : bool; didQuote : bool; sawSlash : bool;
  pairs : gmap string sql.NullString
}.

Definition text (l : list ascii) : string := string_of_list_ascii (rev l).

Definition push (b : ascii) (st : scanner) : scanner :=
  {| key := if inValue st then key st else b :: key st;
     val := if inValue st then b :: val st else val st;
     inValue := inValue st; inQuote := inQuote st; didQuote := didQuote st;
     sawSlash := false; pairs := pairs st |}.

Definition flush (st : scanner) : scanner :=
  let s := text (val st) in
  let v := if negb (didQuote st) && String.eqb (strings.ToLower s) "null"
           then {| sql.String_ := ""; sql.Valid := false |}
           else {| sql.String_ := s; sql.Valid := true |} in
  {| key := []; val := []; inValue := false; inQuote := inQuote st;
     didQuote := didQuote st; sawSlash := false;
     pairs := <[text (key st) := v]> (pairs st) |}.

Definition step (st : scanner) (b : ascii) : scanner :=
  if sawSlash st then push b st
  else if Ascii.eqb b backslash then
    {| key := key st; val := val st; inValue := inValue st;
       inQuote := inQuote st; didQuote := didQuote st; sawSlash := true;
       pairs := pairs st |}
  else if Ascii.eqb b dquote then
    {| key := key st; val := val st; inValue := inValue st;
       inQuote := negb (inQuote st); didQuote := true; sawSlash := false;
       pairs := pairs st |}
  else if inQuote st then push b st
  else if Ascii.eqb b " " || Ascii.eqb b "=" then st
  else if Ascii.eqb b ">" then
    {| key := key st; val := val st; inValue := true;
       inQuote := inQuote st; didQuote := false; sawSlash := false;
       pairs := pairs st |}
  else if Ascii.eqb b "," then flush st
  else push b st.

Definition start : scanner :=
  {| key := []; val := []; inValue := false; inQuote := false;
     didQuote := false; sawSlash := false; pairs := ∅ |}.

Definition pqScan (h : hstore.Hstore) (value : driver.Value)
    : hstore.Hstore * option error :=
  match value with
  | driver.Nil => ({| hstore.Map := None |}, None)
  | driver.Bytes b =>
      let st := fold_left step (list_ascii_of_string b) start in
      let st := if String.eqb b "" then st else flush st in
      ({| hstore.Map := Some (pairs st) |}, None)
  | _ => (h, Some (errorString "hstore: the value is not bytes"))
  end.

End sample.

(** Sample values: three entries, one of them null; and a destination. *)
Definition threeEntries : Hstore :=
  Some (list_to_map [("a", Some "1"); ("b", None); ("c d", Some "x,y=>z")]).

Definition oldEntry : Hstore := Some {[ "old" := Some "entry" ]}.

(** ** A connection that is closed: every [Scan] fails and assigns nothing *)

Definition closedDB : db.SQLCommon :=
  {| db.QueryRow := fun _ _ =>
       {| db.ScanInt :=
            fun d => (d, Some (errorString "sql: database is closed"));
          db.ScanString :=
            fun d => (d, Some (errorString "sql: database is closed")) |} |}.

(** A connection whose [Scan] assigns the destination and then returns an
    error, as [Row.Scan] does when closing the rows fails. *)
Definition lateErrorDB : db.SQLCommon :=
  {| db.QueryRow := fun _ _ =>
       {| db.ScanInt := fun _ => (3%Z, Some (errorString "sql: close failed"));
          db.ScanString :=
            fun _ => ("app", Some (errorString "sql: close failed")) |} |}.

(** ** The vocabulary of the statements *)

(** The last step of [DataTypeOf], as the specification words it: the type,
    then one space and the additional type when that is not blank. *)
Definition withAdditional (sqlType additionalType : string) : string :=
  if String.eqb (strings.TrimSpace additionalType) "" then sqlType
  else sqlType +:+ " " +:+ additionalType.

(** The integer kinds of the first case of the [switch] (the kinds of at
    most 32 bits, and the three whose width is that of the platform) and of
    the second (64 bits). *)
Definition narrowInts : list reflect.Kind :=
  [reflect.Int; reflect.Int8; reflect.Int16; reflect.Int32;
   reflect.Uint; reflect.Uint8; reflect.Uint16; reflect.Uint32;
   reflect.Uintptr].

Definition wideInts : list reflect.Kind := [reflect.Int64; reflect.Uint64].

(** The field is a primary key, or has an [AUTO_INCREMENT] tag, whatever its
    value. *)
Definition autoIncrement (field : model.StructField) : Prop :=
  model.IsPrimaryKey field = true
  \/ is_Some (model.TagSettings field !! "AUTO_INCREMENT").

(** The field with the [AUTO_INCREMENT] tag set as the dialect sets it. *)
Definition marked (field : model.StructField) : model.StructField :=
  model.setTag "AUTO_INCREMENT" "AUTO_INCREMENT" field.

(** A byte sequence: an array or slice of [uint8]. *)
Definition byteSequence (v : reflect.Value) : Prop :=
  (reflect.Value_Kind v = reflect.Array \/ reflect.Value_Kind v = reflect.Slice)
  /\ reflect.Type_Elem (reflect.Value_Type v) = Some reflect.uint8.

(** An array of 16 elements whose type is called uuid or guid, whatever the
    case of the letters. *)
Definition uuidArray (v : reflect.Value) : Prop :=
  reflect.Value_Kind v = reflect.Array
  /\ reflect.Type_Len (reflect.Value_Type v) = 16%Z
  /\ (strings.ToLower (reflect.Type_Name (reflect.Value_Type v)) = "uuid"
      \/ strings.ToLower (reflect.Type_Name (reflect.Value_Type v)) = "guid").

(** The kinds that always have a type. *)
Definition plainKinds : list reflect.Kind :=
  reflect.Bool :: narrowInts ++ wideInts
  ++ [reflect.Float32; reflect.Float64; reflect.String].

(** Some rule of the specification gives the value a type. *)
Definition hasKindRule (v : reflect.Value) : Prop :=
  In (reflect.Value_Kind v) plainKinds
  \/ reflect.Value_Type v = reflect.time_Time
  \/ (reflect.Value_Kind v = reflect.Map
      /\ reflect.Type_Name (reflect.Value_Type v) = "Hstore")
  \/ byteSequence v
  \/ uuidArray v.

(** The type that [DataTypeOf] resolves: the explicit one, else the one of
    the [switch]. *)
Definition resolvedType (sqlType : string) (dataValue : reflect.Value)
    (size : Z) (field : model.StructField) : string :=
  if String.eqb sqlType "" then fst (kindType dataValue size field)
  else sqlType.

(** No explicit SQL type, and no rule for the value. *)
Definition unresolved (sqlType : string) (dataValue : reflect.Value) : Prop :=
  sqlType = "" /\ ~ hasKindRule dataValue.

(** The library codec prints the map [m] without an error, and reads what
    it printed back as [m]. *)
Definition pqRoundTrip
    (pqValue : hstore.Hstore -> driver.Value * option error)
    (pqScan : hstore.Hstore -> driver.Value -> hstore.Hstore * option error)
    (m : gmap string sql.NullString) : Prop :=
  exists v,
    pqValue {| hstore.Map := Some m |} = (v, None)
    /\ pqScan {| hstore.Map := None |} v = ({| hstore.Map := Some m |}, None).

(** [Scan] into a zeroed [int], or into a zeroed [string], fails. *)
Definition scanIntFails (r : db.Row) : Prop :=
  is_Some (snd (db.ScanInt r 0%Z)).

Definition scanStringFails (r : db.Row) : Prop :=
  is_Some (snd (db.ScanString r "")).

(** The type names that the [switch] of [DataTypeOf] can assign, [varchar]
    apart. *)
Definition typeNames : list string :=
  ["boolean"; "serial"; "integer"; "bigserial"; "bigint"; "numeric"; "text";
   "timestamp with time zone"; "hstore"; "bytea"; "uuid"].

(** * Part III: statements and proofs

    ** The type of a field by its kind *)

Lemma eqb_empty_false (s : string) : s <> "" -> String.eqb s "" = false.
Proof. intros H. apply String.eqb_neq. exact H. Qed.

(** Without an explicit SQL type, [DataTypeOf] returns what the [switch]
    assigns, with the additional type after it. *)
Lemma DataTypeOf_by_kind parse field dataValue size additionalType t field' :
  parse field = (dataValue, "", size, additionalType) ->
  kindType dataValue size field = (t, field') ->
  t <> "" ->
  DataTypeOf parse field = ((withAdditional t additionalType, None), field').
Proof.
  intros Hp Hk Ht. unfold DataTypeOf. rewrite Hp. cbn [String.eqb].
  rewrite Hk, (eqb_empty_false _ Ht). unfold withAdditional.
  destruct (String.eqb (strings.TrimSpace additionalType) ""); reflexivity.
Qed.

Lemma hasTag_true k field :
  model.hasTag k field = true <-> is_Some (model.TagSettings field !! k).
Proof. unfold model.hasTag. apply bool_decide_eq_true. Qed.

Lemma hasTag_false k field :
  model.hasTag k field = false <-> model.TagSettings field !! k = None.
Proof.
  unfold model.hasTag. rewrite bool_decide_eq_false.
  rewrite <- eq_None_not_Some. reflexivity.
Qed.

Lemma autoIncrement_test field :
  (autoIncrement field ->
   model.hasTag "AUTO_INCREMENT" field || model.IsPrimaryKey field = true)
  /\ (~ autoIncrement field ->
      model.hasTag "AUTO_INCREMENT" field || model.IsPrimaryKey field = false).
Proof.
  unfold autoIncrement. split.
  - intros [H | H]; apply orb_true_iff; [right | left]; [exact H |].
    apply hasTag_true, H.
  - intros H. apply orb_false_iff. split.
    + apply hasTag_false. apply eq_None_not_Some. tauto.
    + destruct (model.IsPrimaryKey field); [tauto | reflexivity].
Qed.

(** One case of the [switch]: the kind is in a list, the test has a known
    outcome. *)
Ltac int_case parse Hp Hk Htest :=
  apply (DataTypeOf_by_kind parse _ _ _ _ _ _ Hp); [| discriminate];
  unfold kindType; rewrite Htest;
  simpl in Hk; repeat destruct Hk as [Hk | Hk]; try contradiction;
  rewrite <- Hk; reflexivity.

(** C1, as amended.  For a field whose value has an integer kind and that
    has no explicit SQL type: when the field is a primary key or has an
    [AUTO_INCREMENT] tag (with any value), [DataTypeOf] resolves [serial]
    for the kinds of the first case of the switch and [bigserial] for
    [int64] and [uint64], and leaves the field with the [AUTO_INCREMENT]
    tag set; otherwise it resolves [integer] or [bigint] and leaves the
    field as it was.  The string returned is the resolved type, followed by
    a space and the additional type when that is not blank. *)
Theorem DataTypeOf_integer parse field dataValue size additionalType :
  parse field = (dataValue, "", size, additionalType) ->
  (In (reflect.Value_Kind dataValue) narrowInts -> autoIncrement field ->
   DataTypeOf parse field
   = ((withAdditional "serial" additionalType, None), marked field))
  /\ (In (reflect.Value_Kind dataValue) wideInts -> autoIncrement field ->
      DataTypeOf parse field
      = ((withAdditional "bigserial" additionalType, None), marked field))
  /\ (In (reflect.Value_Kind dataValue) narrowInts -> ~ autoIncrement field ->
      DataTypeOf parse field
      = ((withAdditional "integer" additionalType, None), field))
  /\ (In (reflect.Value_Kind dataValue) wideInts -> ~ autoIncrement field ->
      DataTypeOf parse field
      = ((withAdditional "bigint" additionalType, None), field))
  /\ model.TagSettings (marked field) !! "AUTO_INCREMENT"
     = Some "AUTO_INCREMENT".
Proof.
  intros Hp.
  destruct (autoIncrement_test field) as [Hyes Hno].
  repeat apply conj.
  - intros Hk Ha. int_case parse Hp Hk (Hyes Ha).
  - intros Hk Ha. int_case parse Hp Hk (Hyes Ha).
  - intros Hk Ha. int_case parse Hp Hk (Hno Ha).
  - intros Hk Ha. int_case parse Hp Hk (Hno Ha).
  - unfold marked, model.setTag. simpl. apply lookup_insert_eq.
Qed.

(** C1, as stated, fails: an [int32] primary key tagged [NOT NULL] has the
    type [serial NOT NULL], not [serial]. *)
Lemma DataTypeOf_integer_suffix :
  tagParser int32PK
  = (reflect.ValueOf (reflect.basic reflect.Int32), "", 255%Z, "NOT NULL")
  /\ model.IsPrimaryKey int32PK = true
  /\ fst (DataTypeOf tagParser int32PK) = ("serial NOT NULL", None)
  /\ fst (fst (DataTypeOf tagParser int32PK)) <> "serial".
Proof. repeat apply conj; try reflexivity. vm_compute. discriminate. Qed.

(** C1, as amended, on the same field. *)
Lemma DataTypeOf_integer_witness :
  tagParser int32PK
  = (reflect.ValueOf (reflect.basic reflect.Int32), "", 255%Z, "NOT NULL")
  /\ DataTypeOf tagParser int32PK
     = (("serial NOT NULL", None), marked int32PK).
Proof.
  split; [reflexivity |].
  apply (DataTypeOf_integer tagParser int32PK
           (reflect.ValueOf (reflect.basic reflect.Int32)) 255%Z "NOT NULL"
           eq_refl).
  - simpl. tauto.
  - left. reflexivity.
Defined.

(** C2, as amended.  For a field whose value is a string and that has no
    explicit SQL type: without a [SIZE] tag [DataTypeOf] resolves [text],
    whatever the size the parser gives; with a [SIZE] tag and the size [s]
    it resolves [varchar(s)] when [0 < s < 65532] and [text] when [s <= 0]
    or [65532 <= s].  The string returned is the resolved type, followed by
    a space and the additional type when that is not blank; the field is
    left as it was. *)
Theorem DataTypeOf_string parse field dataValue size additionalType :
  parse field = (dataValue, "", size, additionalType) ->
  reflect.Value_Kind dataValue = reflect.String ->
  (model.TagSettings field !! "SIZE" = None ->
   DataTypeOf parse field
   = ((withAdditional "text" additionalType, None), field))
  /\ (is_Some (model.TagSettings field !! "SIZE") ->
      (0 < size < 65532)%Z ->
      DataTypeOf parse field
      = ((withAdditional ("varchar(" +:+ fmt.d size +:+ ")") additionalType,
          None), field))
  /\ (is_Some (model.TagSettings field !! "SIZE") ->
      (size <= 0 \/ 65532 <= size)%Z ->
      DataTypeOf parse field
      = ((withAdditional "text" additionalType, None), field)).
Proof.
  intros Hp Hk. repeat apply conj.
  - intros Hs. apply (DataTypeOf_by_kind parse _ _ _ _ _ _ Hp); [| discriminate].
    unfold kindType. rewrite Hk.
    rewrite (proj2 (hasTag_false "SIZE" field) Hs). reflexivity.
  - intros Hs Hr. apply (DataTypeOf_by_kind parse _ _ _ _ _ _ Hp); [| discriminate].
    unfold kindType. rewrite Hk.
    rewrite (proj2 (hasTag_true "SIZE" field) Hs). cbn [negb].
    replace (size >? 0)%Z with true by lia.
    replace (size <? 65532)%Z with true by lia. reflexivity.
  - intros Hs Hr. apply (DataTypeOf_by_kind parse _ _ _ _ _ _ Hp); [| discriminate].
    unfold kindType. rewrite Hk.
    rewrite (proj2 (hasTag_true "SIZE" field) Hs). cbn [negb].
    destruct Hr as [Hr | Hr].
    + replace (size >? 0)%Z with false by lia. reflexivity.
    + replace (size <? 65532)%Z with false by lia.
      rewrite andb_false_r. reflexivity.
Qed.

(** C2, as stated, fails: a string of size 10 tagged [NOT NULL] has the
    type [varchar(10) NOT NULL], not [varchar(10)]. *)
Lemma DataTypeOf_string_suffix :
  tagParser sized10
  = (reflect.ValueOf (reflect.basic reflect.String), "", 10%Z, "NOT NULL")
  /\ model.TagSettings sized10 !! "SIZE" = Some "10"
  /\ fst (DataTypeOf tagParser sized10) = ("varchar(10) NOT NULL", None)
  /\ fst (fst (DataTypeOf tagParser sized10)) <> "varchar(10)".
Proof. repeat apply conj; try reflexivity. vm_compute. discriminate. Qed.

(** C2, as amended, on the same field. *)
Lemma DataTypeOf_string_witness :
  tagParser sized10
  = (reflect.ValueOf (reflect.basic reflect.String), "", 10%Z, "NOT NULL")
  /\ DataTypeOf tagParser sized10
     = (("varchar(10) NOT NULL", None), sized10).
Proof.
  split; [reflexivity |].
  apply (DataTypeOf_string tagParser sized10
           (reflect.ValueOf (reflect.basic reflect.String)) 10%Z "NOT NULL"
           eq_refl eq_refl).
  - exists "10". reflexivity.
  - lia.
Defined.

(** ** A byte array called UUID *)

(** An array of bytes has the type [bytea], whatever its length and the
    name of its type: the test for a UUID is in the branch that a byte array
    does not take. *)
Lemma byte_array_is_bytea parse field dataValue size additionalType :
  parse field = (dataValue, "", size, additionalType) ->
  reflect.Value_Kind dataValue = reflect.Array ->
  reflect.Type_Elem (reflect.Value_Type dataValue) = Some reflect.uint8 ->
  DataTypeOf parse field
  = ((withAdditional "bytea" additionalType, None), field).
Proof.
  intros Hp Hk He.
  apply (DataTypeOf_by_kind parse _ _ _ _ _ _ Hp); [| discriminate].
  unfold kindType, isByteArrayOrSlice. rewrite Hk, He. reflexivity.
Qed.

(** C3, on the code.  A field of the type [UUID], an array of 16 bytes,
    passes [isUUID] and has no explicit SQL type, and [DataTypeOf] gives it
    the type [bytea], where the claim has [uuid]. *)
Theorem DataTypeOf_UUID_bytea :
  isByteArrayOrSlice (reflect.ValueOf UUID) = true
  /\ isUUID (reflect.ValueOf UUID) = true
  /\ tagParser uuidField = (reflect.ValueOf UUID, "", 255%Z, "")
  /\ DataTypeOf tagParser uuidField = (("bytea", None), uuidField).
Proof. repeat apply conj; reflexivity. Qed.

(** ** Which values the [switch] gives a type *)

Lemma Kind_eqb_eq a b : reflect.Kind_eqb a b = true <-> a = b.
Proof.
  unfold reflect.Kind_eqb. destruct (reflect.Kind_eq_dec a b); split;
    congruence.
Qed.

Lemma Type_eqb_refl : forall a, reflect.Type_eqb a a = true.
Proof.
  fix IH 1. intros [k p n l e]. simpl.
  rewrite (proj2 (Kind_eqb_eq k k) eq_refl), !String.eqb_refl, Z.eqb_refl.
  destruct e as [x |]; [apply IH | reflexivity].
Qed.

Lemma Type_eqb_sound : forall a b, reflect.Type_eqb a b = true -> a = b.
Proof.
  fix IH 1. intros [k p n l e] [k' p' n' l' e']. simpl. intros H.
  apply andb_prop in H as [H He]. apply andb_prop in H as [H Hl].
  apply andb_prop in H as [H Hn]. apply andb_prop in H as [Hk Hp].
  apply Kind_eqb_eq in Hk. apply String.eqb_eq in Hp, Hn.
  apply Z.eqb_eq in Hl. subst.
  destruct e as [x |], e' as [y |]; try discriminate; [| reflexivity].
  rewrite (IH x y He). reflexivity.
Qed.

Lemma Type_eqb_eq a b : reflect.Type_eqb a b = true <-> a = b.
Proof.
  split; [apply Type_eqb_sound | intros ->; apply Type_eqb_refl].
Qed.

Lemma isByteArrayOrSlice_spec v :
  isByteArrayOrSlice v = true <-> byteSequence v.
Proof.
  unfold isByteArrayOrSlice, byteSequence.
  rewrite andb_true_iff, orb_true_iff, !Kind_eqb_eq.
  destruct (reflect.Type_Elem (reflect.Value_Type v)) as [t |].
  - rewrite Type_eqb_eq. split; intros [H1 H2]; split; congruence.
  - split; intros [_ H]; discriminate.
Qed.

Lemma isUUID_spec v : isUUID v = true <-> uuidArray v.
Proof.
  unfold isUUID, uuidArray.
  destruct (reflect.Kind_eqb (reflect.Value_Kind v) reflect.Array) eqn:Hk.
  - apply Kind_eqb_eq in Hk. cbn [negb orb].
    destruct (Z.eqb_spec (reflect.Type_Len (reflect.Value_Type v)) 16)
      as [Hl | Hl]; cbn [negb].
    + rewrite orb_true_iff, !String.eqb_eq. split.
      * intros [H | H]; repeat split; auto.
      * intros (_ & _ & [H | H]); auto.
    + split; [discriminate | intros (_ & H & _); contradiction].
  - cbn [negb orb]. split; [discriminate |].
    intros (H & _). apply Kind_eqb_eq in H. congruence.
Qed.

Lemma isTime_spec v :
  isTime v = true <-> reflect.Value_Type v = reflect.time_Time.
Proof. apply Type_eqb_eq. Qed.

(** The [switch] leaves the field, or sets its [AUTO_INCREMENT] tag. *)
Lemma kindType_field v size field :
  snd (kindType v size field) = field
  \/ snd (kindType v size field)
     = model.setTag "AUTO_INCREMENT" "AUTO_INCREMENT" field.
Proof.
  unfold kindType.
  destruct (reflect.Value_Kind v);
    repeat match goal with |- context [if ?b then _ else _] => destruct b end;
    auto.
Qed.

(** The [switch] assigns a type exactly to the values that have a rule. *)
Lemma kindType_resolved v size field :
  fst (kindType v size field) <> "" <-> hasKindRule v.
Proof.
  unfold hasKindRule.
  rewrite <- isByteArrayOrSlice_spec, <- isUUID_spec, <- isTime_spec.
  assert (Ht : isTime v = true -> reflect.Value_Kind v = reflect.Struct).
  { intros H. apply isTime_spec in H. unfold reflect.Value_Kind.
    rewrite H. reflexivity. }
  assert (Hb : isByteArrayOrSlice v = true ->
               reflect.Value_Kind v = reflect.Array
               \/ reflect.Value_Kind v = reflect.Slice).
  { intros H. apply isByteArrayOrSlice_spec in H. apply H. }
  assert (Hu : isUUID v = true -> reflect.Value_Kind v = reflect.Array).
  { intros H. apply isUUID_spec in H. apply H. }
  unfold kindType.
  destruct (reflect.Value_Kind v) eqn:Hk;
    try (split; [intros _; left; simpl; tauto |]);
    repeat match goal with
      | |- context [if String.eqb ?a ?b then _ else _] =>
          destruct (String.eqb_spec a b)
      | |- context [if ?b then _ else _] => destruct b eqn:?
      end;
    cbn [fst]; try (intros _; discriminate);
    try (split; [intros H; exfalso; apply H; reflexivity |]);
    try (split; [intros _ |]).
  all: try (intros [H | [H | [[H H'] | [H | H]]]];
            try (simpl in H; intuition discriminate);
            try (specialize (Ht H); discriminate);
            try (specialize (Hu H); discriminate);
            try (specialize (Hb H); destruct Hb; discriminate);
            try congruence).
  all: try (intros _; discriminate).
  all: try tauto.
Qed.

(** [DataTypeOf] after its [switch]. *)
Lemma DataTypeOf_unfold parse field dataValue sqlType size additionalType :
  parse field = (dataValue, sqlType, size, additionalType) ->
  fst (DataTypeOf parse field)
  = let t := resolvedType sqlType dataValue size field in
    if String.eqb t "" then ("", Some (invalidSQLType dataValue))
    else (withAdditional t additionalType, None).
Proof.
  intros Hp. unfold DataTypeOf, resolvedType, withAdditional. rewrite Hp.
  destruct (String.eqb sqlType "") eqn:Hs.
  - destruct (kindType dataValue size field) as [t f]. cbn [fst].
    destruct (String.eqb t ""); [reflexivity |].
    destruct (String.eqb (strings.TrimSpace additionalType) ""); reflexivity.
  - rewrite Hs.
    destruct (String.eqb (strings.TrimSpace additionalType) ""); reflexivity.
Qed.

(** C5.  [DataTypeOf] returns an error exactly when the field has no
    explicit SQL type and no rule gives its value a type; the message of the
    error has the name of the type of the value and its kind; otherwise the
    string returned is the resolved type, alone when the additional type is
    blank, and followed by one space and the additional type as it is when
    it is not. *)
Theorem DataTypeOf_error_iff parse field dataValue sqlType size additionalType :
  parse field = (dataValue, sqlType, size, additionalType) ->
  (is_Some (snd (fst (DataTypeOf parse field)))
   <-> unresolved sqlType dataValue)
  /\ (unresolved sqlType dataValue ->
      fst (DataTypeOf parse field)
      = ("", Some (errorString
                     ("invalid sql type "
                      +:+ reflect.Type_Name (reflect.Value_Type dataValue)
                      +:+ " ("
                      +:+ reflect.Kind_String (reflect.Value_Kind dataValue)
                      +:+ ") for postgres"))))
  /\ (~ unresolved sqlType dataValue ->
      resolvedType sqlType dataValue size field <> ""
      /\ (strings.TrimSpace additionalType = "" ->
          fst (DataTypeOf parse field)
          = (resolvedType sqlType dataValue size field, None))
      /\ (strings.TrimSpace additionalType <> "" ->
          fst (DataTypeOf parse field)
          = (resolvedType sqlType dataValue size field
             +:+ " " +:+ additionalType, None))).
Proof.
  intros Hp.
  rewrite (DataTypeOf_unfold parse _ _ _ _ _ Hp). cbv zeta.
  assert (Hu : unresolved sqlType dataValue
               <-> resolvedType sqlType dataValue size field = "").
  { unfold unresolved, resolvedType.
    destruct (String.eqb_spec sqlType "") as [-> | Hne].
    - pose proof (kindType_resolved dataValue size field) as Hr.
      destruct (String.eqb_spec (fst (kindType dataValue size field)) "");
        tauto.
    - tauto. }
  unfold withAdditional.
  destruct (String.eqb_spec (resolvedType sqlType dataValue size field) "")
    as [He | He]; cbn [snd].
  - split; [| split].
    + split; [intros _; exact (proj2 Hu He) | eauto].
    + reflexivity.
    + intros Hn. exfalso. exact (Hn (proj2 Hu He)).
  - assert (Hn : ~ unresolved sqlType dataValue) by (intros H; exact (He (proj1 Hu H))).
    split; [| split].
    + split; [intros [x Hx]; discriminate | intros H; contradiction].
    + intros H. contradiction.
    + intros _. split; [exact He | split];
        destruct (String.eqb_spec (strings.TrimSpace additionalType) "");
        intros H; first [reflexivity | contradiction].
Qed.

(** C5 on a map type called [hstore], in lower case: an error. *)
Lemma DataTypeOf_error_iff_witness :
  tagParser lowerHstore
  = (reflect.ValueOf (reflect.mkType reflect.Map "main" "hstore" 0 None),
     "", 255%Z, "UNIQUE")
  /\ fst (DataTypeOf tagParser lowerHstore)
     = ("", Some (errorString "invalid sql type hstore (map) for postgres")).
Proof.
  split; [reflexivity |].
  apply (DataTypeOf_error_iff tagParser lowerHstore
           (reflect.ValueOf (reflect.mkType reflect.Map "main" "hstore" 0 None))
           "" 255%Z "UNIQUE" eq_refl).
  split; [reflexivity |].
  rewrite <- (kindType_resolved _ 255%Z lowerHstore).
  intros H. apply H. reflexivity.
Defined.

(** ** Calling [DataTypeOf] again, and what a call changes *)

Lemma marked_marked field : marked (marked field) = marked field.
Proof.
  unfold marked, model.setTag. cbn. rewrite insert_insert_eq. reflexivity.
Qed.

Lemma hasTag_marked field : model.hasTag "AUTO_INCREMENT" (marked field) = true.
Proof.
  apply hasTag_true. unfold marked, model.setTag. cbn.
  rewrite lookup_insert_eq. eauto.
Qed.

Lemma hasTag_marked_ne k field :
  k <> "AUTO_INCREMENT" ->
  model.hasTag k (marked field) = model.hasTag k field.
Proof.
  intros Hk. unfold model.hasTag, marked, model.setTag. cbn.
  rewrite lookup_insert_ne by congruence. reflexivity.
Qed.

(** The [switch] on the field it has left gives the same type and leaves
    the field. *)
Lemma kindType_again dataValue size field t field' :
  kindType dataValue size field = (t, field') ->
  kindType dataValue size field' = (t, field').
Proof.
  unfold kindType. fold (marked field). intros H.
  destruct (reflect.Value_Kind dataValue);
    repeat match type of H with
      | context [if ?b then _ else _] => destruct b eqn:?
      end;
    injection H as <- <-;
    rewrite ?hasTag_marked, ?(hasTag_marked_ne "SIZE") by discriminate;
    fold (marked (marked field)); rewrite ?marked_marked;
    repeat match goal with
      | E : ?b = _ |- context [if ?b then _ else _] => rewrite E
      end;
    reflexivity.
Qed.

(** C4.  When a call of [DataTypeOf] returns a type without an error, a
    second call, on the field as the first call has left it, returns the
    same type without an error (and leaves the field).  The parser is not
    part of the dialect: the statement asks that it reads nothing of the
    [AUTO_INCREMENT] tag that the first call may have set. *)
Theorem DataTypeOf_idempotent parse field s field' :
  parse (marked field) = parse field ->
  DataTypeOf parse field = ((s, None), field') ->
  DataTypeOf parse field' = ((s, None), field').
Proof.
  intros Hm. unfold DataTypeOf.
  destruct (parse field) as [[[dataValue sqlType] size] additionalType] eqn:Hp.
  destruct (String.eqb sqlType "") eqn:Hs.
  - destruct (kindType dataValue size field) as [t f] eqn:Hk.
    assert (Hf : parse f = (dataValue, sqlType, size, additionalType)).
    { pose proof (kindType_field dataValue size field) as Hf.
      rewrite Hk in Hf. cbn [snd] in Hf. fold (marked field) in Hf.
      destruct Hf as [-> | ->]; [exact Hp | exact Hm]. }
    intros H.
    assert (f = field') as ->.
    { destruct (String.eqb t "");
        [| destruct (String.eqb (strings.TrimSpace additionalType) "")];
        congruence. }
    rewrite Hf, Hs, (kindType_again _ _ _ _ _ Hk). exact H.
  - rewrite Hs. intros H.
    assert (field = field') as <-.
    { destruct (String.eqb (strings.TrimSpace additionalType) "");
        congruence. }
    rewrite Hp, Hs, Hs. exact H.
Qed.

(** The tag-driven parser reads nothing of the [AUTO_INCREMENT] tag. *)
Lemma tagParser_marked field : tagParser (marked field) = tagParser field.
Proof.
  unfold tagParser, tagOr, marked, model.setTag. cbn.
  rewrite !lookup_insert_ne by discriminate. reflexivity.
Qed.

(** C4 on a field tagged [AUTO_INCREMENT:false]: [bigserial] twice. *)
Lemma DataTypeOf_idempotent_witness :
  tagParser (marked uint64Auto) = tagParser uint64Auto
  /\ DataTypeOf tagParser uint64Auto = (("bigserial", None), marked uint64Auto)
  /\ DataTypeOf tagParser (marked uint64Auto)
     = (("bigserial", None), marked uint64Auto).
Proof.
  split; [apply tagParser_marked |]. split; [reflexivity |].
  apply (DataTypeOf_idempotent tagParser uint64Auto);
    [apply tagParser_marked | reflexivity].
Defined.

(** C9, as amended.  [DataTypeOf] leaves every part of the field other
    than the tag settings as it was; every key of the tag settings is still
    there afterwards; every entry under a key other than [AUTO_INCREMENT]
    is unchanged; and the tag settings are either unchanged or the old ones
    with [AUTO_INCREMENT] set to the string [AUTO_INCREMENT], be it a new
    entry or the new value of an old one. *)
Theorem DataTypeOf_frame parse field :
  let field' := snd (DataTypeOf parse field) in
  model.Name field' = model.Name field
  /\ model.IsPrimaryKey field' = model.IsPrimaryKey field
  /\ model.Struct field' = model.Struct field
  /\ dom (model.TagSettings field) ⊆ dom (model.TagSettings field')
  /\ (forall k, k <> "AUTO_INCREMENT" ->
      model.TagSettings field' !! k = model.TagSettings field !! k)
  /\ (model.TagSettings field' = model.TagSettings field
      \/ model.TagSettings field'
         = <["AUTO_INCREMENT" := "AUTO_INCREMENT"]> (model.TagSettings field)).
Proof.
  assert (H : snd (DataTypeOf parse field) = field
              \/ snd (DataTypeOf parse field) = marked field).
  { unfold DataTypeOf.
    destruct (parse field) as [[[dataValue sqlType] size] additionalType].
    pose proof (kindType_field dataValue size field) as Hk.
    destruct (String.eqb sqlType "") eqn:Hs.
    - destruct (kindType dataValue size field) as [t f]. cbn [snd] in Hk.
      destruct (String.eqb t "");
        [| destruct (String.eqb (strings.TrimSpace additionalType) "")];
        exact Hk.
    - rewrite Hs.
      destruct (String.eqb (strings.TrimSpace additionalType) ""); auto. }
  cbv zeta. destruct H as [-> | ->].
  - repeat apply conj; auto.
  - unfold marked, model.setTag. cbn. repeat apply conj; auto.
    + rewrite dom_insert_L. set_solver.
    + intros k Hk. apply lookup_insert_ne. congruence.
Qed.

(** C9, as stated, fails: the entry [AUTO_INCREMENT:false] is not in the
    tag settings after the call, which are thus no superset of the ones
    before. *)
Lemma DataTypeOf_overwrites_tag :
  model.TagSettings uint64Auto !! "AUTO_INCREMENT" = Some "false"
  /\ model.TagSettings (snd (DataTypeOf tagParser uint64Auto))
     !! "AUTO_INCREMENT" = Some "AUTO_INCREMENT"
  /\ ~ (model.TagSettings uint64Auto
        ⊆ model.TagSettings (snd (DataTypeOf tagParser uint64Auto))).
Proof.
  split; [reflexivity |]. split; [reflexivity |].
  intros H. rewrite map_subseteq_spec in H.
  specialize (H "AUTO_INCREMENT" "false" eq_refl). discriminate H.
Qed.

(** ** The codec *)

Section CodecFacts.

Variable pqValue : hstore.Hstore -> driver.Value * option error.
Variable pqScan :
  hstore.Hstore -> driver.Value -> hstore.Hstore * option error.

(** The loop of [Value], from the empty map, and the loop of [Scan], from
    [Hstore{}], are maps over the entries. *)
Lemma Value_loop (h : gmap string (option string)) :
  map_fold
    (fun key value hstore =>
       let s := Hstore.nullString value in
       {| hstore.Map := store key s (hstore.Map hstore) |})
    {| hstore.Map := Some ∅ |} h
  = {| hstore.Map := Some (Hstore.nullString <$> h) |}.
Proof.
  apply (map_fold_weak_ind
           (fun r m => r = {| hstore.Map := Some (Hstore.nullString <$> m) |})).
  - rewrite fmap_empty. reflexivity.
  - intros i x m r _ ->. cbn. rewrite fmap_insert. reflexivity.
Qed.

Lemma Scan_loop (m : gmap string sql.NullString) :
  map_fold (fun k s h => store k (Hstore.pointer s) h) (Some ∅) m
  = Some (Hstore.pointer <$> m).
Proof.
  apply (map_fold_weak_ind (fun r m => r = Some (Hstore.pointer <$> m))).
  - rewrite fmap_empty. reflexivity.
  - intros i x m' r _ ->. cbn. rewrite fmap_insert. reflexivity.
Qed.

Lemma pointer_nullString value :
  Hstore.pointer (Hstore.nullString value) = value.
Proof. destruct value; reflexivity. Qed.

Lemma pointers_nullStrings (h : gmap string (option string)) :
  Hstore.pointer <$> (Hstore.nullString <$> h) = h.
Proof.
  rewrite <- map_fmap_compose.
  rewrite <- (map_fmap_id h) at 2. apply map_fmap_ext.
  intros i x _. apply pointer_nullString.
Qed.

Lemma len_nullStrings (h : gmap string (option string)) :
  len (Some (Hstore.nullString <$> h)) = len (Some h).
Proof. unfold len. rewrite map_size_fmap. reflexivity. Qed.

(** C6.  For a value [h] with at least one entry, [Value] then [Scan], into
    any destination, give [h] back, the entries without a string included.
    The codec of lib/pq is not part of the dialect: the statement asks that
    it reads back the map of null strings that [Value] hands to it. *)
Theorem Scan_Value (h dest : Hstore) :
  len h <> 0%Z ->
  pqRoundTrip pqValue pqScan (Hstore.nullString <$> entries h) ->
  exists v,
    Hstore.Value pqValue h = (v, None)
    /\ Hstore.Scan pqScan dest v = (h, None).
Proof.
  intros Hn (v & Hv & Hs). exists v.
  destruct h as [h |]; [| contradiction]. unfold entries, default in *.
  cbn [from_option id] in *. split.
  - unfold Hstore.Value. rewrite (proj2 (Z.eqb_neq _ _) Hn).
    unfold entries, default. cbn [from_option id].
    rewrite Value_loop. exact Hv.
  - unfold Hstore.Scan. rewrite Hs. cbn [hstore.Map].
    rewrite len_nullStrings, (proj2 (Z.eqb_neq _ _) Hn).
    unfold entries, default. cbn [from_option id].
    rewrite Scan_loop, pointers_nullStrings. reflexivity.
Qed.

(** C7.  [Value] of a value without an entry is [nil], without an error;
    and when the library reads a raw value as a map without an entry (the
    nil map, as for SQL NULL, or the empty map), [Scan] returns no error and
    leaves the destination as it was. *)
Theorem empty_Value_and_Scan (h dest : Hstore) (v : driver.Value)
    (parsed : hstore.Hstore) :
  (len h = 0%Z -> Hstore.Value pqValue h = (driver.Nil, None))
  /\ (pqScan {| hstore.Map := None |} v = (parsed, None) ->
      len (hstore.Map parsed) = 0%Z ->
      Hstore.Scan pqScan dest v = (dest, None)).
Proof.
  split.
  - intros H. unfold Hstore.Value. rewrite H. reflexivity.
  - intros Hs H. unfold Hstore.Scan. rewrite Hs, H. reflexivity.
Qed.

(** C10.  When the library fails to read the raw value, [Scan] returns its
    error and leaves the destination as it was; and a [Scan] that changes
    the destination has returned no error, after the library has read the
    raw value, without an error, as a map with at least one entry. *)
Theorem Scan_atomic (dest : Hstore) (v : driver.Value) :
  (forall parsed err,
     pqScan {| hstore.Map := None |} v = (parsed, Some err) ->
     Hstore.Scan pqScan dest v = (dest, Some err))
  /\ (forall dest' err,
        Hstore.Scan pqScan dest v = (dest', err) ->
        dest' <> dest ->
        err = None
        /\ exists parsed,
             pqScan {| hstore.Map := None |} v = (parsed, None)
             /\ len (hstore.Map parsed) <> 0%Z
             /\ dest' = Some (Hstore.pointer <$> entries (hstore.Map parsed))).
Proof.
  split.
  - intros parsed err Hs. unfold Hstore.Scan. rewrite Hs. reflexivity.
  - intros dest' err. unfold Hstore.Scan.
    destruct (pqScan {| hstore.Map := None |} v) as [parsed [e |]].
    + intros [= <- <-] H. contradiction.
    + destruct (Z.eqb_spec (len (hstore.Map parsed)) 0) as [Hz | Hz].
      * intros [= <- <-] H. contradiction.
      * intros [= <- <-] _. split; [reflexivity |].
        exists parsed. rewrite Scan_loop. auto.
Qed.

End CodecFacts.

(** C6 with the sample codec, on three entries. *)
Lemma Scan_Value_witness :
  len threeEntries <> 0%Z
  /\ exists v,
       Hstore.Value sample.pqValue threeEntries = (v, None)
       /\ Hstore.Scan sample.pqScan oldEntry v = (threeEntries, None).
Proof.
  split; [vm_compute; discriminate |].
  apply (Scan_Value sample.pqValue sample.pqScan threeEntries oldEntry).
  - vm_compute. discriminate.
  - eexists. split; vm_compute; reflexivity.
Defined.

(** C7 with the sample codec: the empty value, SQL NULL, the empty
    literal. *)
Lemma empty_Value_and_Scan_witness :
  Hstore.Value sample.pqValue (Some ∅) = (driver.Nil, None)
  /\ Hstore.Scan sample.pqScan oldEntry driver.Nil = (oldEntry, None)
  /\ Hstore.Scan sample.pqScan oldEntry (driver.Bytes "") = (oldEntry, None).
Proof.
  split; [| split].
  - apply (empty_Value_and_Scan sample.pqValue sample.pqScan (Some ∅)
             None driver.Nil {| hstore.Map := None |}).
    reflexivity.
  - apply (empty_Value_and_Scan sample.pqValue sample.pqScan None
             oldEntry driver.Nil {| hstore.Map := None |}); reflexivity.
  - apply (empty_Value_and_Scan sample.pqValue sample.pqScan None
             oldEntry (driver.Bytes "") {| hstore.Map := Some ∅ |});
      reflexivity.
Defined.

(** C10 with the sample codec, on a raw value that is not bytes. *)
Lemma Scan_atomic_witness :
  sample.pqScan {| hstore.Map := None |} (driver.Integer 7)
  = ({| hstore.Map := None |},
     Some (errorString "hstore: the value is not bytes"))
  /\ Hstore.Scan sample.pqScan oldEntry (driver.Integer 7)
     = (oldEntry, Some (errorString "hstore: the value is not bytes")).
Proof.
  split; [reflexivity |].
  apply (Scan_atomic sample.pqScan oldEntry (driver.Integer 7))
    with (parsed := {| hstore.Map := None |}).
  reflexivity.
Defined.

(** ** The catalog probes *)

(** C8, as amended.  No probe has an error to return: each computes its
    result from what [Scan] has left in the destination, whatever the error
    of [Scan].  [HasIndex], [HasForeignKey], [HasTable] and [HasColumn]
    return [true] exactly when the count left is above zero, so they return
    [false] when [Scan] fails and has left the count at its zero value; and
    [CurrentDatabase] returns the name left, so the empty string when [Scan]
    fails and has left the name empty. *)
Theorem probes_swallow_errors (DB : db.SQLCommon) :
  (forall tableName indexName count err,
     db.ScanInt (db.QueryRow DB hasIndexQuery [tableName; indexName]) 0%Z
     = (count, err) ->
     (HasIndex DB tableName indexName = true <-> (0 < count)%Z)
     /\ (is_Some err -> count = 0%Z ->
         HasIndex DB tableName indexName = false))
  /\ (forall tableName foreignKeyName count err,
        db.ScanInt (db.QueryRow DB hasForeignKeyQuery
                                [tableName; foreignKeyName]) 0%Z
        = (count, err) ->
        (HasForeignKey DB tableName foreignKeyName = true <-> (0 < count)%Z)
        /\ (is_Some err -> count = 0%Z ->
            HasForeignKey DB tableName foreignKeyName = false))
  /\ (forall tableName count err,
        db.ScanInt (db.QueryRow DB hasTableQuery [tableName]) 0%Z
        = (count, err) ->
        (HasTable DB tableName = true <-> (0 < count)%Z)
        /\ (is_Some err -> count = 0%Z -> HasTable DB tableName = false))
  /\ (forall tableName columnName count err,
        db.ScanInt (db.QueryRow DB hasColumnQuery [tableName; columnName]) 0%Z
        = (count, err) ->
        (HasColumn DB tableName columnName = true <-> (0 < count)%Z)
        /\ (is_Some err -> count = 0%Z ->
            HasColumn DB tableName columnName = false))
  /\ (forall name err,
        db.ScanString (db.QueryRow DB currentDatabaseQuery []) ""
        = (name, err) ->
        CurrentDatabase DB = name
        /\ (is_Some err -> name = "" -> CurrentDatabase DB = "")).
Proof.
  repeat apply conj.
  - intros t i c e H. unfold HasIndex. rewrite H.
    split; [apply Z.gtb_lt | intros _ ->; reflexivity].
  - intros t i c e H. unfold HasForeignKey. rewrite H.
    split; [apply Z.gtb_lt | intros _ ->; reflexivity].
  - intros t c e H. unfold HasTable. rewrite H.
    split; [apply Z.gtb_lt | intros _ ->; reflexivity].
  - intros t i c e H. unfold HasColumn. rewrite H.
    split; [apply Z.gtb_lt | intros _ ->; reflexivity].
  - intros n e H. unfold CurrentDatabase. rewrite H.
    split; [reflexivity | intros _ ->; reflexivity].
Qed.

(** C8, as stated, fails: on a connection whose [Scan] assigns the
    destination and then returns an error, the scan of the row fails, yet
    [HasTable] returns [true] and [CurrentDatabase] a name. *)
Lemma probes_late_error :
  db.ScanInt (db.QueryRow lateErrorDB hasTableQuery ["users"]) 0%Z
  = (3%Z, Some (errorString "sql: close failed"))
  /\ scanIntFails (db.QueryRow lateErrorDB hasTableQuery ["users"])
  /\ HasTable lateErrorDB "users" = true
  /\ HasTable lateErrorDB "users" <> false
  /\ scanStringFails (db.QueryRow lateErrorDB currentDatabaseQuery [])
  /\ CurrentDatabase lateErrorDB = "app"
  /\ CurrentDatabase lateErrorDB <> "".
Proof.
  unfold scanIntFails, scanStringFails.
  repeat apply conj; try reflexivity; cbn; eauto; discriminate.
Qed.

(** C8, as amended, on a closed connection, whose [Scan] fails and assigns
    nothing, and on the connection above. *)
Lemma probes_swallow_errors_witness :
  scanIntFails (db.QueryRow closedDB hasTableQuery ["users"])
  /\ HasIndex closedDB "users" "idx_users_name" = false
  /\ HasForeignKey closedDB "users" "fk_users_group" = false
  /\ HasTable closedDB "users" = false
  /\ HasColumn closedDB "users" "name" = false
  /\ CurrentDatabase closedDB = ""
  /\ HasTable lateErrorDB "users" = true.
Proof.
  destruct (probes_swallow_errors closedDB) as (H1 & H2 & H3 & H4 & H5).
  destruct (probes_swallow_errors lateErrorDB) as (_ & _ & L3 & _ & _).
  assert (He : is_Some (Some (errorString "sql: database is closed")))
    by eauto.
  repeat apply conj.
  - unfold scanIntFails. cbn. eauto.
  - apply (H1 "users" "idx_users_name" 0%Z _ eq_refl); [exact He | reflexivity].
  - apply (H2 "users" "fk_users_group" 0%Z _ eq_refl); [exact He | reflexivity].
  - apply (H3 "users" 0%Z _ eq_refl); [exact He | reflexivity].
  - apply (H4 "users" "name" 0%Z _ eq_refl); [exact He | reflexivity].
  - apply (H5 "" _ eq_refl); [exact He | reflexivity].
  - apply (L3 "users" 3%Z _ eq_refl). reflexivity.
Defined.

(** * Part IV: further properties of the code

    ** Strings *)

Lemma append_nonempty (s t : string) : s <> "" -> s +:+ t <> "".
Proof. destruct s; [congruence | discriminate]. Qed.

Lemma list_ascii_append (s t : string) :
  list_ascii_of_string (s +:+ t)
  = (list_ascii_of_string s ++ list_ascii_of_string t)%list.
Proof.
  induction s as [| c s IH]; [reflexivity |].
  simpl. f_equal. exact IH.
Qed.

Lemma append_inv_tail (s s' t : string) : s +:+ t = s' +:+ t -> s = s'.
Proof.
  intros H. apply (f_equal list_ascii_of_string) in H.
  rewrite !list_ascii_append in H. apply List.app_inv_tail in H.
  rewrite <- (string_of_list_ascii_of_string s),
          <- (string_of_list_ascii_of_string s'), H.
  reflexivity.
Qed.

Lemma append_inv_head (s t t' : string) : s +:+ t = s +:+ t' -> t = t'.
Proof.
  induction s as [| c s IH]; [tauto |].
  simpl. intros [= H]. exact (IH H).
Qed.

(** The decimal of an [int] never is the empty list of digits. *)
Lemma to_int_proper z :
  Z.to_int z <> Decimal.Pos Decimal.Nil
  /\ Z.to_int z <> Decimal.Neg Decimal.Nil.
Proof.
  destruct z as [| p | p]; cbn; split; try discriminate.
  - intros [= H]. apply (DecimalPos.Unsigned.to_uint_nonnil p H).
  - intros [= H]. apply (DecimalPos.Unsigned.to_uint_nonnil p H).
Qed.

(** [%d] prints different numbers differently. *)
Lemma fmt_d_inj a b : fmt.d a = fmt.d b -> a = b.
Proof.
  unfold fmt.d. intros H. apply DecimalZ.to_int_inj.
  destruct (to_int_proper a) as [Ha1 Ha2], (to_int_proper b) as [Hb1 Hb2].
  pose proof (NilZero.isi _ Ha1 Ha2) as Ia.
  pose proof (NilZero.isi _ Hb1 Hb2) as Ib.
  rewrite H in Ia. congruence.
Qed.

(** ** Placeholders and the suffix of an insert *)

(** X1.  [BindVar] gives two positions the same placeholder only when they
    are the same position. *)
Theorem BindVar_inj i j : BindVar i = BindVar j <-> i = j.
Proof.
  split; [| intros ->; reflexivity].
  unfold BindVar. cbn. intros [= H]. apply fmt_d_inj, H.
Qed.

(** X2.  For one table, [LastInsertIDReturningSuffix] gives two keys the same
    suffix only when they are the same key; and for one key, two tables the
    same suffix only when they are the same table. *)
Theorem LastInsertIDReturningSuffix_inj tableName key tableName' key' :
  (LastInsertIDReturningSuffix tableName key
   = LastInsertIDReturningSuffix tableName key' <-> key = key')
  /\ (LastInsertIDReturningSuffix tableName key
      = LastInsertIDReturningSuffix tableName' key <-> tableName = tableName').
Proof.
  unfold LastInsertIDReturningSuffix.
  split; split; try (intros ->; reflexivity).
  - intros H. apply append_inv_head in H. apply append_inv_head in H.
    apply (append_inv_head "." _ _ H).
  - intros H. apply append_inv_head in H.
    apply (append_inv_tail _ _ ("." +:+ key)). exact H.
Qed.

(** ** More on [DataTypeOf] *)

Lemma withAdditional_nonempty t a : t <> "" -> withAdditional t a <> "".
Proof.
  intros H. unfold withAdditional.
  destruct (String.eqb (strings.TrimSpace a) ""); [exact H |].
  apply append_nonempty, H.
Qed.

Lemma withAdditional_inj t t' a :
  withAdditional t a = withAdditional t' a -> t = t'.
Proof.
  unfold withAdditional.
  destruct (String.eqb (strings.TrimSpace a) ""); [tauto |].
  apply append_inv_tail.
Qed.

(** X3.  An explicit SQL type is returned as it is, with the additional
    type after it, whatever the kind of the value: there is no error, and
    the field is left as it was, a primary key too. *)
Theorem DataTypeOf_explicit parse field dataValue sqlType size additionalType :
  parse field = (dataValue, sqlType, size, additionalType) ->
  sqlType <> "" ->
  DataTypeOf parse field
  = ((withAdditional sqlType additionalType, None), field).
Proof.
  intros Hp Hs. unfold DataTypeOf, withAdditional. rewrite Hp.
  rewrite !(eqb_empty_false _ Hs).
  destruct (String.eqb (strings.TrimSpace additionalType) ""); reflexivity.
Qed.

(** X3 on an [int64] primary key with the tag [TYPE:numeric(20)]. *)
Lemma DataTypeOf_explicit_witness :
  tagParser typedPK
  = (reflect.ValueOf (reflect.basic reflect.Int64), "numeric(20)", 255%Z, "")
  /\ DataTypeOf tagParser typedPK = (("numeric(20)", None), typedPK).
Proof.
  split; [reflexivity |].
  apply (DataTypeOf_explicit tagParser typedPK
           (reflect.ValueOf (reflect.basic reflect.Int64)) "numeric(20)"
           255%Z "" eq_refl).
  discriminate.
Defined.

(** X4.  The string that [DataTypeOf] returns is empty exactly when it
    returns an error. *)
Theorem DataTypeOf_empty_iff_error parse field :
  fst (fst (DataTypeOf parse field)) = ""
  <-> is_Some (snd (fst (DataTypeOf parse field))).
Proof.
  destruct (parse field) as [[[dataValue sqlType] size] additionalType] eqn:Hp.
  rewrite (DataTypeOf_unfold parse _ _ _ _ _ Hp). cbv zeta.
  destruct (String.eqb_spec (resolvedType sqlType dataValue size field) "")
    as [He | He]; cbn [fst snd].
  - split; eauto.
  - split.
    + intros H. exfalso. exact (withAdditional_nonempty _ _ He H).
    + intros [x Hx]. discriminate.
Qed.

(** X5.  [DataTypeOf] sets the [AUTO_INCREMENT] tag when the field has no
    explicit SQL type, its value has an integer kind, and it is a primary
    key or has the tag already; in every other case it leaves the field as
    it was. *)
Theorem DataTypeOf_marks parse field dataValue sqlType size additionalType :
  parse field = (dataValue, sqlType, size, additionalType) ->
  (sqlType = ""
   /\ In (reflect.Value_Kind dataValue) (narrowInts ++ wideInts)
   /\ autoIncrement field ->
   snd (DataTypeOf parse field) = marked field)
  /\ (~ (sqlType = ""
         /\ In (reflect.Value_Kind dataValue) (narrowInts ++ wideInts)
         /\ autoIncrement field) ->
      snd (DataTypeOf parse field) = field).
Proof.
  intros Hp.
  assert (Hsnd : snd (DataTypeOf parse field)
                 = if String.eqb sqlType ""
                   then snd (kindType dataValue size field) else field).
  { unfold DataTypeOf. rewrite Hp.
    destruct (String.eqb sqlType "") eqn:Hs.
    - destruct (kindType dataValue size field) as [t f]. cbn [snd].
      destruct (String.eqb t "");
        [| destruct (String.eqb (strings.TrimSpace additionalType) "")];
        reflexivity.
    - rewrite Hs.
      destruct (String.eqb (strings.TrimSpace additionalType) "");
        reflexivity. }
  rewrite Hsnd. destruct (autoIncrement_test field) as [Hyes Hno].
  destruct (String.eqb_spec sqlType "") as [Hs | Hs].
  - unfold kindType. fold (marked field). split.
    + intros (_ & Hk & Ha). rewrite (Hyes Ha).
      simpl in Hk. repeat destruct Hk as [Hk | Hk]; try contradiction;
        rewrite <- Hk; reflexivity.
    + intros Hn.
      destruct (reflect.Value_Kind dataValue) eqn:Hk;
        repeat match goal with
          | |- context [if ?b then _ else _] => destruct b eqn:?
          end; try reflexivity;
        exfalso; apply Hn; (split; [exact Hs |]); (split; [simpl; tauto |]);
        unfold autoIncrement;
        match goal with
        | H : _ || _ = true |- _ =>
            apply orb_true_iff in H; destruct H as [H | H];
            [right; apply hasTag_true, H | left; exact H]
        end.
  - split; [intros (H & _); contradiction | reflexivity].
Qed.

(** X5 on an [int32] primary key, and on a string. *)
Lemma DataTypeOf_marks_witness :
  tagParser int32PK
  = (reflect.ValueOf (reflect.basic reflect.Int32), "", 255%Z, "NOT NULL")
  /\ snd (DataTypeOf tagParser int32PK) = marked int32PK
  /\ snd (DataTypeOf tagParser sized10) = sized10.
Proof.
  split; [reflexivity |]. split.
  - apply (DataTypeOf_marks tagParser int32PK
             (reflect.ValueOf (reflect.basic reflect.Int32)) "" 255%Z
             "NOT NULL" eq_refl).
    split; [reflexivity |]. split; [simpl; tauto | left; reflexivity].
  - apply (DataTypeOf_marks tagParser sized10
             (reflect.ValueOf (reflect.basic reflect.String)) "" 10%Z
             "NOT NULL" eq_refl).
    intros (_ & H & _). simpl in H. intuition discriminate.
Defined.

(** ** Which values have which type *)

(** Without an explicit SQL type, [DataTypeOf] returns the type [t] (and
    the additional type) exactly when the [switch] assigns [t]. *)
Lemma DataTypeOf_resolves parse field dataValue size additionalType t :
  parse field = (dataValue, "", size, additionalType) ->
  t <> "" ->
  fst (DataTypeOf parse field) = (withAdditional t additionalType, None)
  <-> fst (kindType dataValue size field) = t.
Proof.
  intros Hp Ht. rewrite (DataTypeOf_unfold parse _ _ _ _ _ Hp). cbv zeta.
  unfold resolvedType. cbn [String.eqb].
  destruct (String.eqb_spec (fst (kindType dataValue size field)) "")
    as [He | He].
  - split; [discriminate | congruence].
  - split.
    + intros [= H]. apply (withAdditional_inj _ _ _ H).
    + intros ->. reflexivity.
Qed.

(** The cases of the [switch], with every test in them decided. *)
Ltac switch_cases v :=
  unfold kindType;
  destruct (reflect.Value_Kind v) eqn:?;
  repeat match goal with
    | |- context [if String.eqb ?a ?b then _ else _] =>
        destruct (String.eqb_spec a b)
    | |- context [if ?b then _ else _] => destruct b eqn:?
    end;
  cbn [fst].

Lemma kindType_default v size field :
  (fst (kindType v size field) = "bytea" <-> byteSequence v)
  /\ (fst (kindType v size field) = "uuid"
      <-> uuidArray v /\ ~ byteSequence v).
Proof.
  rewrite <- isByteArrayOrSlice_spec, <- isUUID_spec.
  assert (Hb : isByteArrayOrSlice v = true ->
               reflect.Value_Kind v = reflect.Array
               \/ reflect.Value_Kind v = reflect.Slice).
  { intros H. apply isByteArrayOrSlice_spec in H. apply H. }
  assert (Hu : isUUID v = true -> reflect.Value_Kind v = reflect.Array).
  { intros H. apply isUUID_spec in H. apply H. }
  destruct (isByteArrayOrSlice v) eqn:Eb, (isUUID v) eqn:Eu;
    try specialize (Hb eq_refl); try specialize (Hu eq_refl);
    switch_cases v;
    try (destruct Hb; congruence); try congruence;
    (split; split; intros H; try discriminate H; try reflexivity;
     try (match type of H with
          | _ /\ _ => destruct H; first [discriminate | congruence | tauto]
          end);
     try (split; [reflexivity | discriminate]);
     try (exfalso; apply H; reflexivity)).
Qed.

Lemma kindType_plain v size field :
  (fst (kindType v size field) = "boolean"
   <-> reflect.Value_Kind v = reflect.Bool)
  /\ (fst (kindType v size field) = "numeric"
      <-> In (reflect.Value_Kind v) [reflect.Float32; reflect.Float64])
  /\ (fst (kindType v size field) = "timestamp with time zone"
      <-> reflect.Value_Type v = reflect.time_Time)
  /\ (fst (kindType v size field) = "hstore"
      <-> reflect.Value_Kind v = reflect.Map
          /\ reflect.Type_Name (reflect.Value_Type v) = "Hstore").
Proof.
  rewrite <- isTime_spec.
  assert (Ht : isTime v = true -> reflect.Value_Kind v = reflect.Struct).
  { intros H. apply isTime_spec in H. unfold reflect.Value_Kind.
    rewrite H. reflexivity. }
  destruct (isTime v) eqn:Et; try specialize (Ht eq_refl);
    switch_cases v; try congruence;
    (repeat apply conj; intros H; try discriminate H; try reflexivity;
     try (simpl in H; intuition discriminate);
     try (simpl; tauto);
     try (destruct H; first [discriminate | congruence])).
Qed.

Lemma kindType_integer v size field :
  (fst (kindType v size field) = "serial"
   <-> In (reflect.Value_Kind v) narrowInts /\ autoIncrement field)
  /\ (fst (kindType v size field) = "bigserial"
      <-> In (reflect.Value_Kind v) wideInts /\ autoIncrement field)
  /\ (fst (kindType v size field) = "integer"
      <-> In (reflect.Value_Kind v) narrowInts /\ ~ autoIncrement field)
  /\ (fst (kindType v size field) = "bigint"
      <-> In (reflect.Value_Kind v) wideInts /\ ~ autoIncrement field).
Proof.
  destruct (autoIncrement_test field) as [Hyes Hno].
  assert (Ha : autoIncrement field \/ ~ autoIncrement field).
  { unfold autoIncrement.
    destruct (model.IsPrimaryKey field); [left; left; reflexivity |].
    destruct (model.TagSettings field !! "AUTO_INCREMENT") eqn:E.
    - left. right. eauto.
    - right. intros [H | [x H]]; discriminate. }
  unfold kindType.
  destruct Ha as [Ha | Ha]; [rewrite (Hyes Ha) | rewrite (Hno Ha)];
    destruct (reflect.Value_Kind v) eqn:?;
    repeat match goal with
      | |- context [if ?b then _ else _] => destruct b eqn:?
      end;
    cbn [fst];
    (repeat apply conj; intros H; try discriminate H; try reflexivity;
     try (match type of H with
          | _ /\ _ => destruct H as [Hin Hauto]; simpl in Hin;
                      first [contradiction | intuition discriminate]
          end);
     try (split; [simpl; tauto | assumption])).
Qed.

Lemma kindType_string v size field :
  (fst (kindType v size field) = "text"
   <-> reflect.Value_Kind v = reflect.String
       /\ ~ (is_Some (model.TagSettings field !! "SIZE")
             /\ 0 < size < 65532)%Z)
  /\ (forall n,
        fst (kindType v size field) = "varchar(" +:+ fmt.d n +:+ ")"
        <-> reflect.Value_Kind v = reflect.String
            /\ is_Some (model.TagSettings field !! "SIZE")
            /\ (0 < size < 65532)%Z /\ n = size).
Proof.
  assert (Hstr : reflect.Value_Kind v = reflect.String ->
            fst (kindType v size field)
            = if model.hasTag "SIZE" field && (size >? 0)%Z
                 && (size <? 65532)%Z
              then "varchar(" +:+ fmt.d size +:+ ")" else "text").
  { intros Hk. unfold kindType. rewrite Hk.
    destruct (model.hasTag "SIZE" field); cbn [negb andb]; [| reflexivity].
    destruct ((size >? 0)%Z && (size <? 65532)%Z); reflexivity. }
  assert (Hother : reflect.Value_Kind v <> reflect.String ->
            forall t, fst (kindType v size field) = t ->
            In t ["boolean"; "serial"; "integer"; "bigserial"; "bigint";
                  "numeric"; "timestamp with time zone"; "hstore"; "bytea";
                  "uuid"; ""]).
  { intros Hk t <-. unfold kindType.
    destruct (reflect.Value_Kind v); try congruence;
      repeat match goal with
        | |- context [if ?b then _ else _] => destruct b
        end; cbn; tauto. }
  assert (Htag : model.hasTag "SIZE" field && (size >? 0)%Z
                 && (size <? 65532)%Z = true
                 <-> is_Some (model.TagSettings field !! "SIZE")
                     /\ (0 < size < 65532)%Z).
  { rewrite !andb_true_iff, hasTag_true, Z.gtb_lt, Z.ltb_lt. tauto. }
  destruct (reflect.Kind_eq_dec (reflect.Value_Kind v) reflect.String)
    as [Hk | Hk].
  - rewrite (Hstr Hk).
    destruct (model.hasTag "SIZE" field && (size >? 0)%Z
              && (size <? 65532)%Z).
    + pose proof (proj1 Htag eq_refl) as E. split.
      * split; [discriminate | intros [_ H]; contradiction].
      * intros n. split.
        -- intros H. cbn in H. injection H as H.
           change (fmt.d size +:+ ")" = fmt.d n +:+ ")") in H.
           apply append_inv_tail, fmt_d_inj in H. subst n. tauto.
        -- intros (_ & _ & _ & ->). reflexivity.
    + assert (En : ~ (is_Some (model.TagSettings field !! "SIZE")
                      /\ (0 < size < 65532)%Z)).
      { intros H. apply Htag in H. discriminate. }
      split.
      * split; [intros _; split; assumption | reflexivity].
      * intros n. split; [discriminate | tauto].
  - split.
    + split; [| intros [H _]; contradiction].
      intros H. specialize (Hother Hk _ H). cbn in Hother.
      intuition discriminate.
    + intros n. split; [| intros [H _]; contradiction].
      intros H. specialize (Hother Hk _ H). cbn in Hother.
      intuition discriminate.
Qed.

Lemma kindType_range v size field :
  In (fst (kindType v size field)) ("" :: typeNames)
  \/ (reflect.Value_Kind v = reflect.String
      /\ (0 < size < 65532)%Z
      /\ fst (kindType v size field) = "varchar(" +:+ fmt.d size +:+ ")").
Proof.
  unfold kindType.
  destruct (reflect.Value_Kind v) eqn:Hk;
    try (left;
         repeat match goal with
           | |- context [if ?b then _ else _] => destruct b
           end; cbn; tauto).
  destruct (negb (model.hasTag "SIZE" field)); [left; cbn; tauto |].
  destruct (Z.gtb_spec size 0) as [Hg | Hg]; [| left; cbn; tauto].
  destruct (Z.ltb_spec size 65532) as [Hl | Hl]; [| left; cbn; tauto].
  right. cbn [andb fst]. repeat split; [lia | lia].
Qed.

(** X6.  Without an explicit SQL type, [DataTypeOf] returns [serial] only
    for an integer kind of the first case of the switch on a field that is
    a primary key or has the [AUTO_INCREMENT] tag, and for every such field;
    and likewise [bigserial], [integer] and [bigint]. *)
Theorem DataTypeOf_integer_iff parse field dataValue size additionalType :
  parse field = (dataValue, "", size, additionalType) ->
  (fst (DataTypeOf parse field)
   = (withAdditional "serial" additionalType, None)
   <-> In (reflect.Value_Kind dataValue) narrowInts /\ autoIncrement field)
  /\ (fst (DataTypeOf parse field)
      = (withAdditional "bigserial" additionalType, None)
      <-> In (reflect.Value_Kind dataValue) wideInts /\ autoIncrement field)
  /\ (fst (DataTypeOf parse field)
      = (withAdditional "integer" additionalType, None)
      <-> In (reflect.Value_Kind dataValue) narrowInts
          /\ ~ autoIncrement field)
  /\ (fst (DataTypeOf parse field)
      = (withAdditional "bigint" additionalType, None)
      <-> In (reflect.Value_Kind dataValue) wideInts
          /\ ~ autoIncrement field).
Proof.
  intros Hp.
  rewrite !(DataTypeOf_resolves parse _ _ _ _ _ Hp) by discriminate.
  apply kindType_integer.
Qed.

(** X6 on an [uint64] tagged [AUTO_INCREMENT:false]. *)
Lemma DataTypeOf_integer_iff_witness :
  tagParser uint64Auto
  = (reflect.ValueOf (reflect.basic reflect.Uint64), "", 255%Z, "")
  /\ fst (DataTypeOf tagParser uint64Auto) = ("bigserial", None)
  /\ autoIncrement uint64Auto.
Proof.
  split; [reflexivity |]. split; [reflexivity |].
  apply (DataTypeOf_integer_iff tagParser uint64Auto
           (reflect.ValueOf (reflect.basic reflect.Uint64)) 255%Z ""
           eq_refl).
  reflexivity.
Defined.

(** X7.  Without an explicit SQL type, [DataTypeOf] returns [text] exactly
    for a string without a [SIZE] tag or with a size outside of 1..65531,
    and [varchar(n)] exactly for a string with a [SIZE] tag and the size
    [n] within 1..65531. *)
Theorem DataTypeOf_string_iff parse field dataValue size additionalType :
  parse field = (dataValue, "", size, additionalType) ->
  (fst (DataTypeOf parse field) = (withAdditional "text" additionalType, None)
   <-> reflect.Value_Kind dataValue = reflect.String
       /\ ~ (is_Some (model.TagSettings field !! "SIZE")
             /\ 0 < size < 65532)%Z)
  /\ (forall n,
        fst (DataTypeOf parse field)
        = (withAdditional ("varchar(" +:+ fmt.d n +:+ ")") additionalType,
           None)
        <-> reflect.Value_Kind dataValue = reflect.String
            /\ is_Some (model.TagSettings field !! "SIZE")
            /\ (0 < size < 65532)%Z /\ n = size).
Proof.
  intros Hp. destruct (kindType_string dataValue size field) as [Ht Hv].
  split.
  - rewrite (DataTypeOf_resolves parse _ _ _ _ _ Hp) by discriminate.
    exact Ht.
  - intros n.
    rewrite (DataTypeOf_resolves parse _ _ _ _ _ Hp) by discriminate.
    apply Hv.
Qed.

(** X7 on a string of size 10: [varchar(10)] and not [varchar(11)]. *)
Lemma DataTypeOf_string_iff_witness :
  tagParser sized10
  = (reflect.ValueOf (reflect.basic reflect.String), "", 10%Z, "NOT NULL")
  /\ fst (DataTypeOf tagParser sized10) = ("varchar(10) NOT NULL", None)
  /\ fst (DataTypeOf tagParser sized10) <> ("varchar(11) NOT NULL", None).
Proof.
  split; [reflexivity |]. split; [reflexivity |].
  intros H.
  destruct (proj1 (proj2 (DataTypeOf_string_iff tagParser sized10
                            (reflect.ValueOf (reflect.basic reflect.String))
                            10%Z "NOT NULL" eq_refl) 11%Z) H)
    as (_ & _ & _ & H').
  discriminate H'.
Defined.

(** X8.  Without an explicit SQL type, [DataTypeOf] returns [boolean]
    exactly for the kind [bool], [numeric] exactly for the two float kinds,
    [timestamp with time zone] exactly for [time.Time] and [hstore] exactly
    for a map type called [Hstore]. *)
Theorem DataTypeOf_plain parse field dataValue size additionalType :
  parse field = (dataValue, "", size, additionalType) ->
  (fst (DataTypeOf parse field)
   = (withAdditional "boolean" additionalType, None)
   <-> reflect.Value_Kind dataValue = reflect.Bool)
  /\ (fst (DataTypeOf parse field)
      = (withAdditional "numeric" additionalType, None)
      <-> In (reflect.Value_Kind dataValue)
             [reflect.Float32; reflect.Float64])
  /\ (fst (DataTypeOf parse field)
      = (withAdditional "timestamp with time zone" additionalType, None)
      <-> reflect.Value_Type dataValue = reflect.time_Time)
  /\ (fst (DataTypeOf parse field)
      = (withAdditional "hstore" additionalType, None)
      <-> reflect.Value_Kind dataValue = reflect.Map
          /\ reflect.Type_Name (reflect.Value_Type dataValue) = "Hstore").
Proof.
  intros Hp.
  rewrite !(DataTypeOf_resolves parse _ _ _ _ _ Hp) by discriminate.
  apply kindType_plain.
Qed.

(** X8 on a [time.Time] tagged [NOT NULL]. *)
Lemma DataTypeOf_plain_witness :
  tagParser timeField
  = (reflect.ValueOf reflect.time_Time, "", 255%Z, "NOT NULL")
  /\ fst (DataTypeOf tagParser timeField)
     = ("timestamp with time zone NOT NULL", None).
Proof.
  split; [reflexivity |].
  apply (DataTypeOf_plain tagParser timeField
           (reflect.ValueOf reflect.time_Time) 255%Z "NOT NULL" eq_refl).
  reflexivity.
Defined.

(** X9.  Without an explicit SQL type, [DataTypeOf] returns [bytea] exactly
    for an array or slice of [uint8], and [uuid] exactly for an array of 16
    elements that are not of type [uint8] and whose type is called uuid or
    guid. *)
Theorem DataTypeOf_bytea_uuid parse field dataValue size additionalType :
  parse field = (dataValue, "", size, additionalType) ->
  (fst (DataTypeOf parse field) = (withAdditional "bytea" additionalType, None)
   <-> byteSequence dataValue)
  /\ (fst (DataTypeOf parse field)
      = (withAdditional "uuid" additionalType, None)
      <-> uuidArray dataValue /\ ~ byteSequence dataValue).
Proof.
  intros Hp. destruct (kindType_default dataValue size field) as [Hb Hu].
  rewrite !(DataTypeOf_resolves parse _ _ _ _ _ Hp) by discriminate.
  split; assumption.
Qed.

(** X9 on an array of 16 [int8] called UUID. *)
Lemma DataTypeOf_bytea_uuid_witness :
  tagParser (fieldOf int8UUID false [])
  = (reflect.ValueOf int8UUID, "", 255%Z, "")
  /\ fst (DataTypeOf tagParser (fieldOf int8UUID false [])) = ("uuid", None).
Proof.
  split; [reflexivity |].
  apply (DataTypeOf_bytea_uuid tagParser (fieldOf int8UUID false [])
           (reflect.ValueOf int8UUID) 255%Z "" eq_refl).
  split.
  - repeat split. left. reflexivity.
  - intros [_ H]. discriminate H.
Defined.

(** X10.  Without an explicit SQL type, a type that [DataTypeOf] returns
    is one of eleven names or [varchar(n)] with [n] within 1..65531,
    followed by the additional type. *)
Theorem DataTypeOf_types parse field dataValue size additionalType :
  parse field = (dataValue, "", size, additionalType) ->
  snd (fst (DataTypeOf parse field)) = None ->
  exists t,
    fst (fst (DataTypeOf parse field)) = withAdditional t additionalType
    /\ (In t typeNames
        \/ exists n, (0 < n < 65532)%Z /\ t = "varchar(" +:+ fmt.d n +:+ ")").
Proof.
  intros Hp. rewrite (DataTypeOf_unfold parse _ _ _ _ _ Hp). cbv zeta.
  unfold resolvedType. cbn [String.eqb].
  destruct (String.eqb_spec (fst (kindType dataValue size field)) "")
    as [He | He]; cbn [fst snd]; [discriminate |].
  intros _. exists (fst (kindType dataValue size field)).
  split; [reflexivity |].
  destruct (kindType_range dataValue size field) as [[H | H] | (_ & Hr & H)].
  - congruence.
  - left. exact H.
  - right. exists size. split; assumption.
Qed.

(** X10 on a string of size 10. *)
Lemma DataTypeOf_types_witness :
  tagParser sized10
  = (reflect.ValueOf (reflect.basic reflect.String), "", 10%Z, "NOT NULL")
  /\ exists t,
       fst (fst (DataTypeOf tagParser sized10))
       = withAdditional t "NOT NULL"
       /\ (In t typeNames
           \/ exists n, (0 < n < 65532)%Z
                        /\ t = "varchar(" +:+ fmt.d n +:+ ")").
Proof.
  split; [reflexivity |].
  apply (DataTypeOf_types tagParser sized10
           (reflect.ValueOf (reflect.basic reflect.String)) 10%Z "NOT NULL"
           eq_refl).
  reflexivity.
Defined.


(** ** More on the codec *)

Section CodecMore.

Variable pqValue : hstore.Hstore -> driver.Value * option error.
Variable pqScan :
  hstore.Hstore -> driver.Value -> hstore.Hstore * option error.

(** X11.  For a value with at least one entry, [Value] returns what the
    library makes of a map with the same keys: a key with a string has that
    string, valid; a key with a nil pointer has the empty string, not
    valid. *)
Theorem Value_entries (h : Hstore) :
  len h <> 0%Z ->
  exists m,
    Hstore.Value pqValue h = pqValue {| hstore.Map := Some m |}
    /\ forall k,
         m !! k
         = match entries h !! k with
           | Some (Some s) => Some {| sql.String_ := s; sql.Valid := true |}
           | Some None => Some {| sql.String_ := ""; sql.Valid := false |}
           | None => None
           end.
Proof.
  intros Hn. exists (Hstore.nullString <$> entries h). split.
  - unfold Hstore.Value. rewrite (proj2 (Z.eqb_neq _ _) Hn).
    rewrite Value_loop. reflexivity.
  - intros k. rewrite lookup_fmap.
    destruct (entries h !! k) as [[s |] |]; reflexivity.
Qed.

(** X12.  When the library reads the raw value, without an error, as a map
    with at least one entry, [Scan] puts a new map in the destination, with
    as many entries: a key of the library's map has its string when that is
    valid and a nil pointer when not, and no other key is left, whatever the
    destination held. *)
Theorem Scan_replaces (dest : Hstore) (v : driver.Value)
    (parsed : hstore.Hstore) :
  pqScan {| hstore.Map := None |} v = (parsed, None) ->
  len (hstore.Map parsed) <> 0%Z ->
  exists h,
    Hstore.Scan pqScan dest v = (Some h, None)
    /\ size h = size (entries (hstore.Map parsed))
    /\ forall k,
         h !! k
         = match entries (hstore.Map parsed) !! k with
           | Some s =>
               Some (if sql.Valid s then Some (sql.String_ s) else None)
           | None => None
           end.
Proof.
  intros Hs Hn. exists (Hstore.pointer <$> entries (hstore.Map parsed)).
  split; [| split].
  - unfold Hstore.Scan. rewrite Hs, (proj2 (Z.eqb_neq _ _) Hn).
    rewrite Scan_loop. reflexivity.
  - apply map_size_fmap.
  - intros k. rewrite lookup_fmap.
    destruct (entries (hstore.Map parsed) !! k); reflexivity.
Qed.

(** X13.  A second [Scan] of the same raw value, into the destination as the
    first has left it, returns the same error and leaves the same
    destination. *)
Theorem Scan_again (dest : Hstore) (v : driver.Value) :
  Hstore.Scan pqScan (fst (Hstore.Scan pqScan dest v)) v
  = Hstore.Scan pqScan dest v.
Proof.
  unfold Hstore.Scan.
  destruct (pqScan {| hstore.Map := None |} v) as [parsed [e |]];
    [reflexivity |].
  destruct (len (hstore.Map parsed) =? 0)%Z; reflexivity.
Qed.

End CodecMore.

(** X11 with the sample codec, on three entries. *)
Lemma Value_entries_witness :
  len threeEntries <> 0%Z
  /\ exists m,
       Hstore.Value sample.pqValue threeEntries
       = sample.pqValue {| hstore.Map := Some m |}
       /\ m !! "a" = Some {| sql.String_ := "1"; sql.Valid := true |}
       /\ m !! "b" = Some {| sql.String_ := ""; sql.Valid := false |}
       /\ m !! "z" = None.
Proof.
  split; [vm_compute; discriminate |].
  destruct (Value_entries sample.pqValue threeEntries) as (m & Hv & Hm).
  - vm_compute. discriminate.
  - exists m. split; [exact Hv |]. rewrite !Hm. repeat split.
Defined.

(** X12 with the sample codec: the old entry is gone. *)
Lemma Scan_replaces_witness :
  exists h,
    Hstore.Scan sample.pqScan oldEntry (driver.Bytes "k=>NULL") = (Some h, None)
    /\ h !! "k" = Some None
    /\ h !! "old" = None.
Proof.
  destruct (Scan_replaces sample.pqScan oldEntry (driver.Bytes "k=>NULL")
              {| hstore.Map :=
                   Some {[ "k" := {| sql.String_ := ""; sql.Valid := false |} ]} |})
    as (h & Hs & _ & Hh).
  - vm_compute. reflexivity.
  - vm_compute. discriminate.
  - exists h. split; [exact Hs |]. rewrite !Hh. split; reflexivity.
Defined.
